(** * Enterprise feature flag system: targeting, kill switches, A/B tests

    A shallow embedding of [src/feature_flags.py] and the properties of its
    targeting engine, flag registry, kill switch and experiment engine.

    Conventions of the embedding.
    - A Python [str] is a Rocq [string] holding its UTF-8 bytes, so that
      [s.encode()] is the list of the string's characters.
    - A Python [int] is a [Z].
    - A Python [float] is a rational [Q]: the literals [100.0], [0.1], [1.0],
      [0.05] are [100], [1/10], [1], [5/100]; NaN and the infinities are
      outside the model.  True division [/] raises [ZeroDivisionError] on a
      zero divisor, which the embedding returns as an error value.
    - A [datetime] is a [Z] number of microseconds; [datetime.now()] is an
      explicit argument of every function that reads the clock.
    - A [Dict[str, _]] is a [gmap string _], a [Set[str]] is a [gset string].
    - Objects held in a registry are owned by it: a method that mutates
      [self.flags[key]] in place is a function that writes the new record
      back under [key]. *)

From Stdlib Require Import ZArith QArith Lqa List Ascii String DecimalString
  DecimalNat Lia.
From stdpp Require Import gmap strings list fin_maps.

Import ListNotations.
Local Open Scope Z_scope.

(** ** hashlib.md5 (RFC 1321), on bytes held as [Z] *)

Module MD5.

Definition add32 (x y : Z) : Z := Z.land (x + y) 0xffffffff.

Definition not32 (x : Z) : Z := Z.lxor x 0xffffffff.

Definition rotl32 (x c : Z) : Z :=
  Z.land (Z.lor (Z.shiftl x c) (Z.shiftr x (32 - c))) 0xffffffff.

Definition shifts : list Z :=
  [ 7; 12; 17; 22; 7; 12; 17; 22; 7; 12; 17; 22; 7; 12; 17; 22;
    5; 9; 14; 20; 5; 9; 14; 20; 5; 9; 14; 20; 5; 9; 14; 20;
    4; 11; 16; 23; 4; 11; 16; 23; 4; 11; 16; 23; 4; 11; 16; 23;
    6; 10; 15; 21; 6; 10; 15; 21; 6; 10; 15; 21; 6; 10; 15; 21 ].

Definition sines : list Z :=
  [ 0xd76aa478; 0xe8c7b756; 0x242070db; 0xc1bdceee;
    0xf57c0faf; 0x4787c62a; 0xa8304613; 0xfd469501;
    0x698098d8; 0x8b44f7af; 0xffff5bb1; 0x895cd7be;
    0x6b901122; 0xfd987193; 0xa679438e; 0x49b40821;
    0xf61e2562; 0xc040b340; 0x265e5a51; 0xe9b6c7aa;
    0xd62f105d; 0x02441453; 0xd8a1e681; 0xe7d3fbc8;
    0x21e1cde6; 0xc33707d6; 0xf4d50d87; 0x455a14ed;
    0xa9e3e905; 0xfcefa3f8; 0x676f02d9; 0x8d2a4c8a;
    0xfffa3942; 0x8771f681; 0x6d9d6122; 0xfde5380c;
    0xa4beea44; 0x4bdecfa9; 0xf6bb4b60; 0xbebfbc70;
    0x289b7ec6; 0xeaa127fa; 0xd4ef3085; 0x04881d05;
    0xd9d4d039; 0xe6db99e5; 0x1fa27cf8; 0xc4ac5665;
    0xf4292244; 0x432aff97; 0xab9423a7; 0xfc93a039;
    0x655b59c3; 0x8f0ccc92; 0xffeff47d; 0x85845dd1;
    0x6fa87e4f; 0xfe2ce6e0; 0xa3014314; 0x4e0811a1;
    0xf7537e82; 0xbd3af235; 0x2ad7d2bb; 0xeb86d391 ].

(** [n] little-endian bytes of [w]. *)
Fixpoint le_bytes (n : nat) (w : Z) : list Z :=
  match n with
  | O => []
  | S n' => Z.land w 0xff :: le_bytes n' (Z.shiftr w 8)
  end.

Fixpoint le_value (bs : list Z) : Z :=
  match bs with
  | [] => 0
  | b :: bs' => Z.lor b (Z.shiftl (le_value bs') 8)
  end.

Definition be_value (bs : list Z) : Z :=
  fold_left (fun acc b => acc * 256 + b) bs 0.

(** The message, a 1 bit, zeros up to 56 modulo 64, the bit length on
    eight bytes. *)
Definition pad (msg : list Z) : list Z :=
  let len := Z.of_nat (length msg) in
  msg ++ [0x80] ++ repeat 0 (Z.to_nat ((55 - len) mod 64))
      ++ le_bytes 8 (8 * len).

Fixpoint words (n : nat) (bs : list Z) : list Z :=
  match n with
  | O => []
  | S n' => le_value (firstn 4 bs) :: words n' (skipn 4 bs)
  end.

Definition state : Type := Z * Z * Z * Z.

Definition init : state := (0x67452301, 0xefcdab89, 0x98badcfe, 0x10325476).

Definition round (M : list Z) (st : state) (i : nat) : state :=
  let '(A, B, C, D) := st in
  let '(F, g) :=
    if (i <? 16)%nat then
      (Z.lor (Z.land B C) (Z.land (not32 B) D), i)
    else if (i <? 32)%nat then
      (Z.lor (Z.land D B) (Z.land (not32 D) C), ((5 * i + 1) mod 16)%nat)
    else if (i <? 48)%nat then
      (Z.lxor (Z.lxor B C) D, ((3 * i + 5) mod 16)%nat)
    else
      (Z.lxor C (Z.lor B (not32 D)), ((7 * i) mod 16)%nat) in
  let F' := add32 (add32 (add32 F A) (nth i sines 0)) (nth g M 0) in
  (D, add32 B (rotl32 F' (nth i shifts 0)), B, C).

Definition compress (st : state) (chunk : list Z) : state :=
  let '(a0, b0, c0, d0) := st in
  let '(A, B, C, D) := fold_left (round (words 16 chunk)) (seq 0 64) st in
  (add32 a0 A, add32 b0 B, add32 c0 C, add32 d0 D).

Fixpoint chunks (n : nat) (bs : list Z) (st : state) : state :=
  match n with
  | O => st
  | S n' => chunks n' (skipn 64 bs) (compress st (firstn 64 bs))
  end.

Definition digest (msg : list Z) : list Z :=
  let p := pad msg in
  let '(a, b, c, d) := chunks (length p / 64)%nat p init in
  le_bytes 4 a ++ le_bytes 4 b ++ le_bytes 4 c ++ le_bytes 4 d.

(** [int(hashlib.md5(msg).hexdigest(), 16)] *)
Definition md5_int (msg : list Z) : Z := be_value (digest msg).

End MD5.

(** [s.encode()] *)
Definition encode (s : string) : list Z :=
  map (fun a => Z.of_N (N_of_ascii a)) (list_ascii_of_string s).


(** ** Values of the attribute dictionaries ([Dict[str, Any]]) *)

Inductive PyVal : Type :=
| VNone
| VBool (b : bool)
| VInt (n : Z)
| VFloat (q : Q)
| VStr (s : string).

Definition numeric (v : PyVal) : option Q :=
  match v with
  | VBool b => Some (if b then 1%Q else 0%Q)
  | VInt n => Some (inject_Z n)
  | VFloat q => Some q
  | VNone | VStr _ => None
  end.

(** Python's [==] on these values: numbers (booleans included) compare by
    value, strings with strings, [None] only with [None]. *)
Definition py_eq (a b : PyVal) : bool :=
  match a, b with
  | VNone, VNone => true
  | VStr s, VStr t => String.eqb s t
  | _, _ =>
      match numeric a, numeric b with
      | Some x, Some y => Qeq_bool x y
      | _, _ => false
      end
  end.

(** [d.get(k)] *)
Definition dict_get (d : gmap string PyVal) (k : string) : PyVal :=
  match d !! k with
  | Some v => v
  | None => VNone
  end.

(** Float comparison and the built-ins [min] and [max] on two arguments
    (the first argument is returned unless the second is strictly
    better). *)
Definition Qltb (x y : Q) : bool := negb (Qle_bool y x).

Definition py_min (a b : Q) : Q := if Qltb b a then b else a.

Definition py_max (a b : Q) : Q := if Qltb a b then b else a.

Definition py_abs (a : Q) : Q := if Qltb a 0 then (- a)%Q else a.

(** Exceptions and results of code that can raise. *)
Inductive PyExn : Type := ZeroDivisionError.

Inductive result (A : Type) : Type :=
| Ok (a : A)
| Raise (e : PyExn).

Arguments Ok {A} a.
Arguments Raise {A} e.

#[global] Instance result_ret : MRet result := fun A a => Ok a.

#[global] Instance result_bind : MBind result := fun A B k r =>
  match r with
  | Ok a => k a
  | Raise e => Raise e
  end.

(** True division [a / b]. *)
Definition truediv (a b : Q) : result Q :=
  if Qeq_bool b 0 then Raise ZeroDivisionError else Ok (a / b)%Q.

(** ** Data model *)

Inductive RolloutStrategy : Type :=
| ALL_USERS
| PERCENTAGE
| TARGETED
| GRADUAL
| CANARY
| NOT_A_STRATEGY.
(* [NOT_A_STRATEGY] stands for any object other than the five members of
   the enum: the field is not checked at run time and [evaluate] has a
   final [else] branch for it. *)

Record FeatureFlag : Type := {
  key : string;
  name : string;
  description : string;
  enabled : bool;
  rollout_strategy : RolloutStrategy;
  rollout_percentage : Q;
  target_users : gset string;
  target_groups : gset string;
  target_attributes : gmap string PyVal;
  created_at : Z;
  updated_at : Z;
  evaluations : Z;
  enabled_count : Z
}.

Record User : Type := {
  id : string;
  email : string;
  groups : list string;
  attributes : gmap string PyVal
}.

(** One keyword argument of [update_flag], by the attribute it names.
    [kw_other] is a name that is not a field of the dataclass: either
    [hasattr] is false and it is skipped, or it sets an attribute that no
    field reads. *)
Inductive Kwarg : Type :=
| kw_key (v : string)
| kw_name (v : string)
| kw_description (v : string)
| kw_enabled (v : bool)
| kw_rollout_strategy (v : RolloutStrategy)
| kw_rollout_percentage (v : Q)
| kw_target_users (v : gset string)
| kw_target_groups (v : gset string)
| kw_target_attributes (v : gmap string PyVal)
| kw_created_at (v : Z)
| kw_updated_at (v : Z)
| kw_evaluations (v : Z)
| kw_enabled_count (v : Z)
| kw_other (k : string) (v : PyVal).

(** [setattr(flag, k, v)] guarded by [hasattr(flag, k)] *)
Definition setattr (flag : FeatureFlag) (kw : Kwarg) : FeatureFlag :=
  {| key := match kw with kw_key v => v | _ => key flag end;
     name := match kw with kw_name v => v | _ => name flag end;
     description :=
       match kw with kw_description v => v | _ => description flag end;
     enabled := match kw with kw_enabled v => v | _ => enabled flag end;
     rollout_strategy :=
       match kw with
       | kw_rollout_strategy v => v
       | _ => rollout_strategy flag
       end;
     rollout_percentage :=
       match kw with
       | kw_rollout_percentage v => v
       | _ => rollout_percentage flag
       end;
     target_users :=
       match kw with kw_target_users v => v | _ => target_users flag end;
     target_groups :=
       match kw with kw_target_groups v => v | _ => target_groups flag end;
     target_attributes :=
       match kw with
       | kw_target_attributes v => v
       | _ => target_attributes flag
       end;
     created_at := match kw with kw_created_at v => v | _ => created_at flag end;
     updated_at := match kw with kw_updated_at v => v | _ => updated_at flag end;
     evaluations :=
       match kw with kw_evaluations v => v | _ => evaluations flag end;
     enabled_count :=
       match kw with kw_enabled_count v => v | _ => enabled_count flag end |}.

(** ** TargetingEngine *)

Record TargetingEngine : Type := {
  engine_evaluations : Z   (* [self.evaluations] *)
}.

(** [int(hashlib.md5(hash_input.encode()).hexdigest(), 16)] *)
Definition hash_value (hash_input : string) : Z :=
  MD5.md5_int (encode hash_input).

(** [(hash_value % 100) / 100.0] *)
Definition percentage (hash_input : string) : Q :=
  (inject_Z (hash_value hash_input mod 100) / 100)%Q.

(** The test of the attribute loop: [user.attributes.get(attr) == value]. *)
Definition attribute_matches (user : User) (attr : string) (value : PyVal)
  : bool :=
  py_eq (dict_get (attributes user) attr) value.

Definition _evaluate_targeted (flag : FeatureFlag) (user : User) : bool :=
  if bool_decide (id user ∈ target_users flag) then true
  else if existsb (fun group => bool_decide (group ∈ target_groups flag))
            (groups user) then true
  else
    existsb (fun '(attr, value) => attribute_matches user attr value)
      (map_to_list (target_attributes flag)).

Definition _evaluate_percentage (flag : FeatureFlag) (user : User) : bool :=
  let hash_input := key flag +:+ ":" +:+ id user in
  Qltb (percentage hash_input) (rollout_percentage flag).

(** [(now - flag.created_at).total_seconds() / 3600], the difference being
    a number of microseconds. *)
Definition elapsed_hours (now : Z) (flag : FeatureFlag) : Q :=
  (inject_Z (now - created_at flag) / 1000000 / 3600)%Q.

Definition _evaluate_gradual (now : Z) (flag : FeatureFlag) (user : User)
  : bool :=
  let target_percentage := py_min 1 (elapsed_hours now flag * (1 # 10)) in
  let hash_input := key flag +:+ ":" +:+ id user in
  Qltb (percentage hash_input) target_percentage.

Definition _evaluate_canary (flag : FeatureFlag) (user : User) : bool :=
  _evaluate_percentage flag user && Qle_bool (rollout_percentage flag) (5 # 100).

Definition evaluate (now : Z) (self : TargetingEngine) (flag : FeatureFlag)
    (user : User) : bool * TargetingEngine * FeatureFlag :=
  let self := {| engine_evaluations := engine_evaluations self + 1 |} in
  let flag := setattr flag (kw_evaluations (evaluations flag + 1)) in
  if negb (enabled flag) then (false, self, flag)
  else
    let result :=
      match rollout_strategy flag with
      | ALL_USERS => true
      | TARGETED => _evaluate_targeted flag user
      | PERCENTAGE => _evaluate_percentage flag user
      | GRADUAL => _evaluate_gradual now flag user
      | CANARY => _evaluate_canary flag user
      | NOT_A_STRATEGY => false
      end in
    let flag :=
      if result then setattr flag (kw_enabled_count (enabled_count flag + 1))
      else flag in
    (result, self, flag).

(** ** FeatureFlagManager *)

Record FeatureFlagManager : Type := {
  flags : gmap string FeatureFlag;
  targeting_engine : TargetingEngine
}.

(** [FeatureFlag(key=key, name=name, description=description)]; the two
    default factories read the clock one after the other. *)
Definition new_flag (key name description : string) (now now' : Z)
  : FeatureFlag :=
  {| key := key; name := name; description := description;
     enabled := false;
     rollout_strategy := ALL_USERS;
     rollout_percentage := 0;
     target_users := ∅;
     target_groups := ∅;
     target_attributes := ∅;
     created_at := now;
     updated_at := now';
     evaluations := 0;
     enabled_count := 0 |}.

Definition create_flag (now now' : Z) (self : FeatureFlagManager)
    (key name description : string) : FeatureFlag * FeatureFlagManager :=
  let flag := new_flag key name description now now' in
  (flag, {| flags := <[key := flag]> (flags self);
            targeting_engine := targeting_engine self |}).

Definition update_flag (now : Z) (self : FeatureFlagManager) (key : string)
    (kwargs : list Kwarg) : bool * FeatureFlagManager :=
  match flags self !! key with
  | None => (false, self)
  | Some flag =>
      let flag := fold_left setattr kwargs flag in
      let flag := setattr flag (kw_updated_at now) in
      (true, {| flags := <[key := flag]> (flags self);
                targeting_engine := targeting_engine self |})
  end.

Definition is_enabled (now : Z) (self : FeatureFlagManager) (key : string)
    (user : User) : bool * FeatureFlagManager :=
  match flags self !! key with
  | None => (false, self)
  | Some flag =>
      let '(r, engine, flag) := evaluate now (targeting_engine self) flag user in
      (r, {| flags := <[key := flag]> (flags self);
             targeting_engine := engine |})
  end.

(** The [while] loop of [rollout_gradually]; [None] when [fuel] iterations
    do not reach the target. *)
Fixpoint rollout_loop (fuel : nat) (target_percentage step : Q)
    (current : Q) (flag : FeatureFlag) : option FeatureFlag :=
  if Qltb current target_percentage then
    match fuel with
    | O => None
    | S fuel' =>
        let current := py_min (current + step)%Q target_percentage in
        rollout_loop fuel' target_percentage step current
          (setattr flag (kw_rollout_percentage current))
    end
  else Some flag.

Definition rollout_gradually (fuel : nat) (self : FeatureFlagManager)
    (key : string) (target_percentage step : Q) : option FeatureFlagManager :=
  match flags self !! key with
  | None => Some self
  | Some flag =>
      let flag := setattr flag (kw_rollout_strategy PERCENTAGE) in
      flag' ← rollout_loop fuel target_percentage step
                 (rollout_percentage flag) flag;
      Some {| flags := <[key := flag']> (flags self);
              targeting_engine := targeting_engine self |}
  end.

(** ** KillSwitch *)

(** An entry of [activated_switches]. *)
Record Activation : Type := {
  flag : string;
  reason : string;
  timestamp : Z
}.

Record KillSwitch : Type := {
  manager : FeatureFlagManager;
  activated_switches : list Activation
}.

Definition activate (now : Z) (self : KillSwitch) (flag_key reason : string)
  : bool * KillSwitch :=
  match flags (manager self) !! flag_key with
  | Some flag =>
      let flag := setattr flag (kw_enabled false) in
      (true,
       {| manager :=
            {| flags := <[flag_key := flag]> (flags (manager self));
               targeting_engine := targeting_engine (manager self) |};
          activated_switches :=
            activated_switches self
              ++ [ {| flag := flag_key; reason := reason; timestamp := now |} ]
       |})
  | None => (false, self)
  end.

Definition deactivate (self : KillSwitch) (flag_key : string)
  : bool * KillSwitch :=
  match flags (manager self) !! flag_key with
  | Some flag =>
      let flag := setattr flag (kw_enabled true) in
      (true,
       {| manager :=
            {| flags := <[flag_key := flag]> (flags (manager self));
               targeting_engine := targeting_engine (manager self) |};
          activated_switches := activated_switches self |})
  | None => (false, self)
  end.

(** ** ABTestingEngine *)

(** The dictionary stored per experiment; [exp_name] is its ['name']. *)
Record Experiment : Type := {
  exp_name : string;
  flag_a : string;
  flag_b : string;
  split : Q;
  variant_a_count : Z;
  variant_b_count : Z;
  variant_a_conversions : Z;
  variant_b_conversions : Z
}.

Record ABTestingEngine : Type := {
  experiments : gmap string Experiment
}.

(** [f"{n}"] for a length. *)
Definition str_of_nat (n : nat) : string :=
  NilEmpty.string_of_uint (Nat.to_uint n).

Definition create_experiment (self : ABTestingEngine)
    (name flag_a flag_b : string) (split : Q) : string * ABTestingEngine :=
  let exp_id := "exp-" +:+ str_of_nat (size (experiments self)) in
  (exp_id,
   {| experiments :=
        <[exp_id := {| exp_name := name;
                       flag_a := flag_a;
                       flag_b := flag_b;
                       split := split;
                       variant_a_count := 0;
                       variant_b_count := 0;
                       variant_a_conversions := 0;
                       variant_b_conversions := 0 |}]> (experiments self) |}).

Definition assign_variant (self : ABTestingEngine) (exp_id : string)
    (user : User) : string * ABTestingEngine :=
  match experiments self !! exp_id with
  | None => ("a", self)
  | Some exp =>
      let hash_input := exp_id +:+ ":" +:+ id user in
      let variant :=
        if Qltb (percentage hash_input) (split exp) then "a" else "b" in
      let exp :=
        if String.eqb variant "a" then
          {| exp_name := exp_name exp; flag_a := flag_a exp;
             flag_b := flag_b exp; split := split exp;
             variant_a_count := variant_a_count exp + 1;
             variant_b_count := variant_b_count exp;
             variant_a_conversions := variant_a_conversions exp;
             variant_b_conversions := variant_b_conversions exp |}
        else
          {| exp_name := exp_name exp; flag_a := flag_a exp;
             flag_b := flag_b exp; split := split exp;
             variant_a_count := variant_a_count exp;
             variant_b_count := variant_b_count exp + 1;
             variant_a_conversions := variant_a_conversions exp;
             variant_b_conversions := variant_b_conversions exp |} in
      (variant, {| experiments := <[exp_id := exp]> (experiments self) |})
  end.

Definition record_conversion (self : ABTestingEngine) (exp_id : string)
    (user : User) : ABTestingEngine :=
  match experiments self !! exp_id with
  | None => self
  | Some _ =>
      let '(variant, self) := assign_variant self exp_id user in
      match experiments self !! exp_id with
      | None => self   (* [self.experiments[exp_id]] after a successful
                          membership test: not reached *)
      | Some exp =>
          let exp :=
            if String.eqb variant "a" then
              {| exp_name := exp_name exp; flag_a := flag_a exp;
                 flag_b := flag_b exp; split := split exp;
                 variant_a_count := variant_a_count exp;
                 variant_b_count := variant_b_count exp;
                 variant_a_conversions := variant_a_conversions exp + 1;
                 variant_b_conversions := variant_b_conversions exp |}
            else
              {| exp_name := exp_name exp; flag_a := flag_a exp;
                 flag_b := flag_b exp; split := split exp;
                 variant_a_count := variant_a_count exp;
                 variant_b_count := variant_b_count exp;
                 variant_a_conversions := variant_a_conversions exp;
                 variant_b_conversions := variant_b_conversions exp + 1 |} in
          {| experiments := <[exp_id := exp]> (experiments self) |}
      end
  end.

(** The dictionary returned by [get_results]. *)
Record VariantResult : Type := {
  users : Z;
  conversions : Z;
  rate : Q
}.

Record Results : Type := {
  res_name : string;
  variant_a : VariantResult;
  variant_b : VariantResult;
  winner : string;
  lift : Q
}.

(** [None] is the empty dictionary returned for an unknown experiment. *)
Definition get_results (self : ABTestingEngine) (exp_id : string)
  : result (option Results) :=
  match experiments self !! exp_id with
  | None => Ok None
  | Some exp =>
      conv_rate_a ← truediv (inject_Z (variant_a_conversions exp))
                       (inject_Z (Z.max (variant_a_count exp) 1));
      conv_rate_b ← truediv (inject_Z (variant_b_conversions exp))
                       (inject_Z (Z.max (variant_b_count exp) 1));
      lift ← truediv (py_abs (conv_rate_a - conv_rate_b))
                (py_max conv_rate_a conv_rate_b);
      Ok (Some
        {| res_name := exp_name exp;
           variant_a := {| users := variant_a_count exp;
                           conversions := variant_a_conversions exp;
                           rate := conv_rate_a |};
           variant_b := {| users := variant_b_count exp;
                           conversions := variant_b_conversions exp;
                           rate := conv_rate_b |};
           winner := if Qltb conv_rate_b conv_rate_a then "a" else "b";
           lift := lift |})
  end.

(** ** The system as a transition system

    [FeatureFlagSystem] shares one manager between its callers and its kill
    switch, so the state of the flag side of the system is the kill switch
    with the manager it holds. *)

Definition with_manager (self : KillSwitch) (m : FeatureFlagManager)
  : KillSwitch :=
  {| manager := m; activated_switches := activated_switches self |}.

Inductive Op : Type :=
| op_create_flag (key name description : string)
| op_update_flag (key : string) (kwargs : list Kwarg)
| op_is_enabled (key : string) (user : User)
| op_rollout_gradually (key : string) (target_percentage step : Q)
| op_activate (flag_key reason : string)
| op_deactivate (flag_key : string).

(** One call; the clock values it reads are arbitrary, and
    [rollout_gradually] takes a step only when its loop ends. *)
Inductive step : KillSwitch -> Op -> KillSwitch -> Prop :=
| step_create_flag ks now now' key name description :
    step ks (op_create_flag key name description)
      (with_manager ks
         (snd (create_flag now now' (manager ks) key name description)))
| step_update_flag ks now key kwargs :
    step ks (op_update_flag key kwargs)
      (with_manager ks (snd (update_flag now (manager ks) key kwargs)))
| step_is_enabled ks now key user :
    step ks (op_is_enabled key user)
      (with_manager ks (snd (is_enabled now (manager ks) key user)))
| step_rollout_gradually ks fuel key target_percentage step_size m :
    rollout_gradually fuel (manager ks) key target_percentage step_size = Some m ->
    step ks (op_rollout_gradually key target_percentage step_size)
      (with_manager ks m)
| step_activate ks now flag_key reason :
    step ks (op_activate flag_key reason)
      (snd (activate now ks flag_key reason))
| step_deactivate ks flag_key :
    step ks (op_deactivate flag_key) (snd (deactivate ks flag_key)).

Inductive steps : KillSwitch -> list Op -> KillSwitch -> Prop :=
| steps_nil ks : steps ks [] ks
| steps_cons ks op ks' ops ks'' :
    step ks op ks' -> steps ks' ops ks'' -> steps ks (op :: ops) ks''.

(** The counter invariant of a flag, and of every flag of the registry. *)
Definition counters_ok (flag : FeatureFlag) : Prop :=
  enabled_count flag <= evaluations flag.

Definition registry_ok (ks : KillSwitch) : Prop :=
  forall key flag, flags (manager ks) !! key = Some flag -> counters_ok flag.

Definition names_counter (kw : Kwarg) : bool :=
  match kw with
  | kw_evaluations _ | kw_enabled_count _ => true
  | _ => false
  end.

Definition assigns_counter (op : Op) : bool :=
  match op with
  | op_update_flag _ kwargs => existsb names_counter kwargs
  | _ => false
  end.

(** Operations that can set [enabled] of the flag under [key] to true. *)
Definition enables_kw (kw : Kwarg) : bool :=
  match kw with
  | kw_enabled true => true
  | _ => false
  end.

Definition may_enable (key : string) (op : Op) : bool :=
  match op with
  | op_update_flag k kwargs => String.eqb k key && existsb enables_kw kwargs
  | op_deactivate k => String.eqb k key
  | _ => false
  end.

(** The flag under [key] is present and switched off. *)
Definition killed (key : string) (ks : KillSwitch) : Prop :=
  exists flag, flags (manager ks) !! key = Some flag /\ enabled flag = false.

(** What one call writes into the registry: [flag_written old key op new]
    when [op], run where the registry holds [old] under [key], stores [new]
    there. *)
Inductive flag_written : option FeatureFlag -> string -> Op -> FeatureFlag -> Prop :=
| fw_create old key name description now now' :
    flag_written old key (op_create_flag key name description)
      (new_flag key name description now now')
| fw_update old key kwargs now :
    flag_written (Some old) key (op_update_flag key kwargs)
      (setattr (fold_left setattr kwargs old) (kw_updated_at now))
| fw_is_enabled old key user now engine :
    flag_written (Some old) key (op_is_enabled key user)
      (snd (evaluate now engine old user))
| fw_rollout old key target_percentage step_size fuel new :
    rollout_loop fuel target_percentage step_size (rollout_percentage old)
      (setattr old (kw_rollout_strategy PERCENTAGE)) = Some new ->
    flag_written (Some old) key
      (op_rollout_gradually key target_percentage step_size) new
| fw_activate old key reason :
    flag_written (Some old) key (op_activate key reason)
      (setattr old (kw_enabled false))
| fw_deactivate old key :
    flag_written (Some old) key (op_deactivate key)
      (setattr old (kw_enabled true)).

(** ** The Targeted rule as the specification words it *)

Definition targeted_rule (flag : FeatureFlag) (user : User) : Prop :=
  id user ∈ target_users flag
  \/ (exists group, group ∈ groups user /\ group ∈ target_groups flag)
  \/ (exists attr value uv,
        target_attributes flag !! attr = Some value
        /\ attributes user !! attr = Some uv
        /\ py_eq uv value = true).

Definition returned (r : bool * TargetingEngine * FeatureFlag) : bool :=
  fst (fst r).

Definition flag_after (r : bool * TargetingEngine * FeatureFlag) : FeatureFlag :=
  snd r.

(** [evaluate] follows the rule, and an attribute the user lacks is not a
    match whatever value is expected. *)
Definition targeted_claim (now : Z) (self : TargetingEngine)
    (flag : FeatureFlag) (user : User) : Prop :=
  (returned (evaluate now self flag user) = true <-> targeted_rule flag user)
  /\ (forall attr value,
        target_attributes flag !! attr = Some value ->
        attributes user !! attr = None ->
        attribute_matches user attr value = false).

(** ** Sample data *)

Definition engine0 : TargetingEngine := {| engine_evaluations := 0 |}.

Definition sample_user (id : string) (groups : list string) : User :=
  {| id := id; email := "user" +:+ id +:+ "@test.com";
     groups := groups; attributes := ∅ |}.

(** An enabled flag ["f"] created at time 0. *)
Definition flag_f : FeatureFlag :=
  setattr (new_flag "f" "F" "sample" 0 0) (kw_enabled true).

(** A disabled Targeted flag that lists user ["2"]. *)
Definition flag_listed_off : FeatureFlag :=
  setattr (setattr (new_flag "premium_features" "Premium Features" "" 0 0)
             (kw_rollout_strategy TARGETED))
    (kw_target_users {[ "2"%string ]}).

(** An enabled Targeted flag that expects the attribute ["plan"] to be
    [None]. *)
Definition flag_plan_none : FeatureFlag :=
  setattr (setattr flag_f (kw_rollout_strategy TARGETED))
    (kw_target_attributes {[ "plan"%string := VNone ]}).

(** The demo's ["premium_features"] flag, with an attribute target added. *)
Definition flag_premium : FeatureFlag :=
  setattr
    (setattr
       (setattr (setattr (new_flag "premium_features" "Premium Features"
                            "Advanced premium features" 0 0)
                   (kw_enabled true))
          (kw_rollout_strategy TARGETED))
       (kw_target_groups {[ "premium"%string; "enterprise"%string ]}))
    (kw_target_attributes {[ "plan"%string := VStr "pro" ]}).

Definition ab0 : ABTestingEngine := {| experiments := ∅ |}.

(** The engine after the demo's [create_experiment] call. *)
Definition ab_checkout : ABTestingEngine :=
  snd (create_experiment ab0 "New Checkout Flow" "checkout_v1" "checkout_v2"
         (1 # 2)).

(** ** The variant of a user, and the conversion counter of a variant *)

Definition variant_of (exp_id : string) (user : User) (split : Q) : string :=
  if Qltb (percentage (exp_id +:+ ":" +:+ id user)) split then "a" else "b".

Definition conversions_of (variant : string) (exp : Experiment) : Z :=
  if String.eqb variant "a" then variant_a_conversions exp
  else variant_b_conversions exp.

Definition other_variant (variant : string) : string :=
  if String.eqb variant "a" then "b" else "a".

(** A system that holds the flag ["f"] and has no kill-switch record. *)
Definition system_f : KillSwitch :=
  {| manager := {| flags := {[ "f"%string := flag_f ]};
                   targeting_engine := engine0 |};
     activated_switches := [] |}.

(** ** The Targeted rule as the code computes it

    The attribute test reads a missing attribute as [None]. *)
Definition targeted_code_rule (flag : FeatureFlag) (user : User) : Prop :=
  id user ∈ target_users flag
  \/ (exists group, group ∈ groups user /\ group ∈ target_groups flag)
  \/ (exists attr value,
        target_attributes flag !! attr = Some value
        /\ attribute_matches user attr value = true).

(** A loop of [is_enabled] calls on one key, each with the time it reads
    and its user, as the demo runs it; the results come back in order. *)
Fixpoint is_enabled_each (self : FeatureFlagManager) (key : string)
    (calls : list (Z * User)) : list bool * FeatureFlagManager :=
  match calls with
  | [] => ([], self)
  | (now, user) :: calls' =>
      let '(r, self) := is_enabled now self key user in
      let '(rs, self) := is_enabled_each self key calls' in
      (r :: rs, self)
  end.

(** Every flag of the registry is stored under its own [key]. *)
Definition keys_ok (ks : KillSwitch) : Prop :=
  forall k flag, flags (manager ks) !! k = Some flag -> key flag = k.

Definition names_key (kw : Kwarg) : bool :=
  match kw with
  | kw_key _ => true
  | _ => false
  end.

Definition renames (op : Op) : bool :=
  match op with
  | op_update_flag _ kwargs => existsb names_key kwargs
  | _ => false
  end.

Definition creates (op : Op) : bool :=
  match op with
  | op_create_flag _ _ _ => true
  | _ => false
  end.

Definition is_activate (op : Op) : bool :=
  match op with
  | op_activate _ _ => true
  | _ => false
  end.

(** ** Calls on the experiment engine *)

Inductive ABOp : Type :=
| ab_create (name flag_a flag_b : string) (split : Q)
| ab_assign (exp_id : string) (user : User)
| ab_record (exp_id : string) (user : User).

Definition ab_run (self : ABTestingEngine) (op : ABOp) : ABTestingEngine :=
  match op with
  | ab_create name flag_a flag_b split =>
      snd (create_experiment self name flag_a flag_b split)
  | ab_assign exp_id user => snd (assign_variant self exp_id user)
  | ab_record exp_id user => record_conversion self exp_id user
  end.

(** The engine after a sequence of calls on a new [ABTestingEngine()]. *)
Definition ab_runs (ops : list ABOp) : ABTestingEngine :=
  fold_left ab_run ops ab0.

Definition count_of (variant : string) (exp : Experiment) : Z :=
  if String.eqb variant "a" then variant_a_count exp
  else variant_b_count exp.

(** No variant has more conversions than assignments. *)
Definition exp_ok (exp : Experiment) : Prop :=
  0 <= variant_a_conversions exp <= variant_a_count exp
  /\ 0 <= variant_b_conversions exp <= variant_b_count exp.

(** The ids in use are [exp-0], ..., [exp-(n-1)] for [n] experiments. *)
Definition ids_ok (self : ABTestingEngine) : Prop :=
  forall k,
    is_Some (experiments self !! k)
    <-> exists i, (i < size (experiments self))%nat
                  /\ k = "exp-" +:+ str_of_nat i.

(** ** AnalyticsEngine.get_flag_stats *)

(** The dictionary it returns; [stats_target_users] is
    [len(flag.target_users)]. *)
Record FlagStats : Type := {
  stats_key : string;
  stats_evaluations : Z;
  stats_enabled_count : Z;
  enabled_rate : Q;
  stats_rollout_percentage : Q;
  stats_target_users : nat
}.

Definition get_flag_stats (flag : FeatureFlag) : result FlagStats :=
  rate ← truediv (inject_Z (enabled_count flag))
            (inject_Z (Z.max (evaluations flag) 1));
  Ok {| stats_key := key flag;
        stats_evaluations := evaluations flag;
        stats_enabled_count := enabled_count flag;
        enabled_rate := rate;
        stats_rollout_percentage := rollout_percentage flag;
        stats_target_users := size (target_users flag) |}.

(** ** Test vectors of the hash *)

Example md5_empty : MD5.md5_int (encode "") = 0xd41d8cd98f00b204e9800998ecf8427e.
Proof. vm_compute. reflexivity. Qed.

Example md5_abc : MD5.md5_int (encode "abc") = 0x900150983cd24fb0d6963f7d28e17f72.
Proof. vm_compute. reflexivity. Qed.

Example md5_a70 :
  MD5.md5_int (repeat 97 70) = 0x0f5c6c4e740bfcc08c3c26ccb2673d46.
Proof. vm_compute. reflexivity. Qed.

Example md5_a56 :
  MD5.md5_int (repeat 97 56) = 0x3b0c8ac703f828b04c6c197006d17218.
Proof. vm_compute. reflexivity. Qed.

Example percentage_new_ui_2 : percentage "new_ui:2" = (0 / 100)%Q.
Proof. vm_compute. reflexivity. Qed.

Example hash_f_5 : hash_value "f:5" mod 100 = 4.
Proof. vm_compute. reflexivity. Qed.

(** The first round of the demo: ["new_ui"] at 25 percent. *)
Example demo_new_ui :
  map (fun u =>
         returned
           (evaluate 0 engine0
              (setattr (setattr (setattr (new_flag "new_ui" "New UI Design"
                                            "Redesigned user interface" 0 0)
                                   (kw_enabled true))
                          (kw_rollout_strategy PERCENTAGE))
                 (kw_rollout_percentage (25 # 100)))
              (sample_user u [])))
    [ "1"%string; "2"%string; "3"%string ]
  = [ false; true; true ].
Proof. vm_compute. reflexivity. Qed.

Example str_of_nat_12 : str_of_nat 12 = "12"%string.
Proof. reflexivity. Qed.

(** ** Arithmetic of the float model *)

Lemma Qltb_lt (x y : Q) : Qltb x y = true <-> (x < y)%Q.
Proof.
  unfold Qltb. rewrite negb_true_iff, <- not_true_iff_false, Qle_bool_iff.
  split; [apply Qnot_le_lt | apply Qlt_not_le].
Qed.

Lemma Qltb_ge (x y : Q) : Qltb x y = false <-> (y <= x)%Q.
Proof.
  unfold Qltb. rewrite negb_false_iff. apply Qle_bool_iff.
Qed.

(** The bucket of a key is one of 0.00, 0.01, ..., 0.99. *)
Lemma percentage_range (s : string) :
  (0 <= percentage s)%Q /\ (percentage s < 1)%Q.
Proof.
  unfold percentage.
  pose proof (Z.mod_pos_bound (hash_value s) 100 ltac:(lia)) as [Hlo Hhi].
  generalize dependent (hash_value s mod 100). intros b Hlo Hhi.
  unfold Qle, Qlt, Qdiv, Qmult, Qinv, inject_Z. simpl. lia.
Qed.

Lemma percentage_lt_1 (s : string) : Qltb (percentage s) 1 = true.
Proof. apply Qltb_lt, percentage_range. Qed.

(** ** TargetingEngine.evaluate *)

Lemma evaluate_disabled now self flag user :
  enabled flag = false -> returned (evaluate now self flag user) = false.
Proof. intros E. unfold evaluate. simpl. rewrite E. reflexivity. Qed.

(** C1: one call to [evaluate] adds one to [flag.evaluations], adds one to
    [flag.enabled_count] exactly when it returns true (a disabled flag
    returns false and only [evaluations] moves), and leaves every other
    field of the flag as it was. *)
Theorem evaluate_counters_frame now self flag user :
  let r := returned (evaluate now self flag user) in
  let flag' := flag_after (evaluate now self flag user) in
  evaluations flag' = evaluations flag + 1
  /\ (enabled_count flag' = enabled_count flag + 1 <-> r = true)
  /\ (r = false -> enabled_count flag' = enabled_count flag)
  /\ (enabled flag = false ->
        r = false /\ enabled_count flag' = enabled_count flag)
  /\ key flag' = key flag
  /\ name flag' = name flag
  /\ description flag' = description flag
  /\ enabled flag' = enabled flag
  /\ rollout_strategy flag' = rollout_strategy flag
  /\ rollout_percentage flag' = rollout_percentage flag
  /\ target_users flag' = target_users flag
  /\ target_groups flag' = target_groups flag
  /\ target_attributes flag' = target_attributes flag
  /\ created_at flag' = created_at flag
  /\ updated_at flag' = updated_at flag.
Proof.
  unfold evaluate, returned, flag_after. simpl.
  destruct (enabled flag) eqn:E; simpl.
  - match goal with
    | |- context [if ?c then setattr _ _ else _] => destruct c eqn:R
    end; simpl; repeat split; intros; try congruence; try lia.
  - repeat split; intros; try congruence; try lia.
Qed.

(** What [evaluate] returns, by cases on the flag as the caller passed it:
    the strategies do not read the counter that [evaluate] has already
    incremented. *)
Lemma evaluate_returned now self flag user :
  returned (evaluate now self flag user) =
  enabled flag &&
  match rollout_strategy flag with
  | ALL_USERS => true
  | TARGETED => _evaluate_targeted flag user
  | PERCENTAGE => _evaluate_percentage flag user
  | GRADUAL => _evaluate_gradual now flag user
  | CANARY => _evaluate_canary flag user
  | NOT_A_STRATEGY => false
  end.
Proof.
  unfold evaluate, returned. simpl.
  destruct (enabled flag); simpl; [| reflexivity].
  destruct (rollout_strategy flag); simpl; try reflexivity;
    match goal with |- context [if ?c then _ else _] => destruct c eqn:R end;
    simpl; symmetry; exact R.
Qed.

(** C5: under the Percentage strategy, a user who passes at
    [rollout_percentage = p1] passes at every larger [p2]. *)
Theorem percentage_monotone now self flag user (p1 p2 : Q) :
  (0 <= p1)%Q -> (p1 < p2)%Q -> (p2 <= 1)%Q ->
  enabled flag = true ->
  rollout_strategy flag = PERCENTAGE ->
  returned (evaluate now self (setattr flag (kw_rollout_percentage p1)) user)
    = true ->
  returned (evaluate now self (setattr flag (kw_rollout_percentage p2)) user)
    = true.
Proof.
  intros _ Hlt _ He Hs. rewrite !evaluate_returned. simpl.
  rewrite He, Hs. simpl. unfold _evaluate_percentage. simpl.
  rewrite !Qltb_lt. intros Hp. eapply Qlt_trans; eassumption.
Qed.

(** C7: ten hours after creation the Gradual strategy returns what the
    Percentage strategy returns at [rollout_percentage = 1.0], which is
    true for every user. *)
Theorem gradual_saturation now self flag user :
  enabled flag = true ->
  (10 <= elapsed_hours now flag)%Q ->
  returned (evaluate now self (setattr flag (kw_rollout_strategy GRADUAL)) user)
  = returned
      (evaluate now self
         (setattr (setattr flag (kw_rollout_strategy PERCENTAGE))
            (kw_rollout_percentage 1)) user)
  /\ returned
       (evaluate now self (setattr flag (kw_rollout_strategy GRADUAL)) user)
     = true.
Proof.
  intros He Hel. rewrite !evaluate_returned. simpl. rewrite He. simpl.
  unfold _evaluate_percentage, _evaluate_gradual. simpl.
  change (elapsed_hours now (setattr flag (kw_rollout_strategy GRADUAL)))
    with (elapsed_hours now flag).
  assert (Hmin : py_min 1 (elapsed_hours now flag * (1 # 10)) = 1%Q).
  { unfold py_min.
    destruct (Qltb (elapsed_hours now flag * (1 # 10)) 1) eqn:Hc;
      [| reflexivity].
    apply Qltb_lt in Hc. exfalso. lra. }
  rewrite Hmin. split; [reflexivity | apply percentage_lt_1].
Qed.

Lemma percentage_monotone_witness :
  returned
    (evaluate 0 engine0 (setattr flag_f (kw_rollout_percentage (1 # 2)))
       (sample_user "5" [])) = true.
Proof.
  apply (percentage_monotone 0 engine0
           (setattr flag_f (kw_rollout_strategy PERCENTAGE))
           (sample_user "5" []) (5 # 100) (1 # 2)).
  - unfold Qle; simpl; lia.
  - reflexivity.
  - unfold Qle; simpl; lia.
  - reflexivity.
  - reflexivity.
  - vm_compute. reflexivity.
Defined.

Lemma gradual_saturation_witness :
  returned
    (evaluate 36000000000 engine0 (setattr flag_f (kw_rollout_strategy GRADUAL))
       (sample_user "3" [])) = true.
Proof.
  apply (gradual_saturation 36000000000 engine0 flag_f (sample_user "3" [])).
  - reflexivity.
  - unfold elapsed_hours, Qle; simpl; lia.
Defined.

(** ** The Targeted strategy *)

Lemma py_eq_None_l (value : PyVal) :
  py_eq VNone value = true -> value = VNone.
Proof. destruct value; simpl; congruence. Qed.

Lemma _evaluate_targeted_rule flag user :
  (forall attr, target_attributes flag !! attr <> Some VNone) ->
  _evaluate_targeted flag user = true <-> targeted_rule flag user.
Proof.
  intros Hnone. unfold _evaluate_targeted, targeted_rule.
  destruct (bool_decide (id user ∈ target_users flag)) eqn:Hu.
  { apply bool_decide_eq_true in Hu. tauto. }
  apply bool_decide_eq_false in Hu.
  destruct (existsb _ (groups user)) eqn:Hg.
  { apply existsb_exists in Hg as (g & Hin & Hd).
    apply bool_decide_eq_true in Hd. apply list_elem_of_In in Hin.
    split; [intros _ | reflexivity]. right; left. eauto. }
  rewrite existsb_exists. split.
  - intros ([attr value] & Hin & Hm).
    apply list_elem_of_In, elem_of_map_to_list in Hin.
    unfold attribute_matches, dict_get in Hm.
    destruct (attributes user !! attr) as [uv |] eqn:Ha.
    + right; right. exists attr, value, uv. auto.
    + apply py_eq_None_l in Hm. subst value. destruct (Hnone attr Hin).
  - intros [Hin | [(g & Hin & Hd) | (attr & value & uv & Ht & Ha & Hm)]].
    + contradiction.
    + assert (existsb (fun group => bool_decide (group ∈ target_groups flag))
                (groups user) = true) as Hg'; [| congruence].
      apply existsb_exists. exists g.
      split; [by apply list_elem_of_In | by apply bool_decide_eq_true].
    + exists (attr, value). split.
      * by apply list_elem_of_In, elem_of_map_to_list.
      * unfold attribute_matches, dict_get. by rewrite Ha.
Qed.

(** C6, amended: for an enabled Targeted flag none of whose expected
    attribute values is [None], [evaluate] returns true exactly when the
    user's id is a target user, or one of the user's groups is a target
    group, or the user holds a targeted attribute with an equal value; an
    attribute the user lacks is not a match. *)
Theorem targeted_enabled_rule now self flag user :
  enabled flag = true ->
  rollout_strategy flag = TARGETED ->
  (forall attr, target_attributes flag !! attr <> Some VNone) ->
  targeted_claim now self flag user.
Proof.
  intros He Hs Hnone. split.
  - rewrite evaluate_returned, He, Hs. simpl.
    by apply _evaluate_targeted_rule.
  - intros attr value Ht Ha. unfold attribute_matches, dict_get. rewrite Ha.
    destruct value; try reflexivity. destruct (Hnone attr Ht).
Qed.

Lemma targeted_enabled_rule_witness :
  targeted_claim 0 engine0 flag_premium (sample_user "2" [ "premium"%string ]).
Proof.
  apply (targeted_enabled_rule 0 engine0 flag_premium
           (sample_user "2" [ "premium"%string ])).
  - reflexivity.
  - reflexivity.
  - intros attr H. simpl in H. apply lookup_singleton_Some in H as [_ H].
    discriminate.
Defined.

Example demo_premium :
  map (fun u => returned (evaluate 0 engine0 flag_premium u))
    [ sample_user "1" [ "free"%string ];
      sample_user "2" [ "premium"%string ];
      {| id := "4"; email := "user4@test.com"; groups := [];
         attributes := {[ "plan"%string := VStr "pro" ]} |} ]
  = [ false; true; true ].
Proof. vm_compute. reflexivity. Qed.

(** C6 as stated fails on a disabled flag that lists the user, and on an
    enabled flag that expects [None] for an attribute the user lacks. *)
Lemma targeted_claim_counterexample :
  (rollout_strategy flag_listed_off = TARGETED
   /\ ~ targeted_claim 0 engine0 flag_listed_off (sample_user "2" []))
  /\ (rollout_strategy flag_plan_none = TARGETED
      /\ ~ targeted_claim 0 engine0 flag_plan_none (sample_user "1" [])).
Proof.
  split; (split; [reflexivity |]).
  - intros [[_ H] _].
    assert (returned (evaluate 0 engine0 flag_listed_off (sample_user "2" []))
            = true) as Hr; [| vm_compute in Hr; discriminate].
    apply H. left. simpl. set_solver.
  - intros [_ H].
    specialize (H "plan"%string VNone).
    assert (attribute_matches (sample_user "1" []) "plan" VNone = false)
      as Hm; [| vm_compute in Hm; discriminate].
    apply H; reflexivity.
Qed.

(** ** ABTestingEngine *)

Lemma assign_variant_returns self exp_id user exp :
  experiments self !! exp_id = Some exp ->
  fst (assign_variant self exp_id user) = variant_of exp_id user (split exp).
Proof. intros H. unfold assign_variant. rewrite H. reflexivity. Qed.

Lemma assign_variant_experiment self exp_id user exp :
  experiments self !! exp_id = Some exp ->
  exists exp',
    experiments (snd (assign_variant self exp_id user)) !! exp_id = Some exp'
    /\ split exp' = split exp
    /\ variant_a_conversions exp' = variant_a_conversions exp
    /\ variant_b_conversions exp' = variant_b_conversions exp
    /\ variant_a_count exp' + variant_b_count exp'
       = variant_a_count exp + variant_b_count exp + 1.
Proof.
  intros H. unfold assign_variant. rewrite H. simpl.
  rewrite lookup_insert_eq. eexists. split; [reflexivity |].
  destruct (Qltb _ (split exp)); simpl; repeat split; lia.
Qed.

Lemma variant_of_cases exp_id user q :
  variant_of exp_id user q = "a"%string \/ variant_of exp_id user q = "b"%string.
Proof. unfold variant_of. destruct (Qltb _ q); auto. Qed.

(** C8: two successive [assign_variant] calls for the same experiment and
    user return the same variant although the first one moved a counter,
    and [record_conversion] adds one to the conversion counter of that
    variant and leaves the other conversion counter alone. *)
Theorem assign_variant_consistent self exp_id user exp :
  experiments self !! exp_id = Some exp ->
  let variant := fst (assign_variant self exp_id user) in
  let self1 := snd (assign_variant self exp_id user) in
  self1 <> self
  /\ fst (assign_variant self1 exp_id user) = variant
  /\ exists exp',
       experiments (record_conversion self exp_id user) !! exp_id = Some exp'
       /\ conversions_of variant exp' = conversions_of variant exp + 1
       /\ conversions_of (other_variant variant) exp'
          = conversions_of (other_variant variant) exp.
Proof.
  intros H. simpl.
  destruct (assign_variant_experiment self exp_id user exp H)
    as (exp1 & H1 & Hsplit & Ha & Hb & Hcount).
  split; [| split].
  - intros Heq. rewrite Heq, H in H1. injection H1 as <-. lia.
  - rewrite (assign_variant_returns _ _ _ _ H1), Hsplit.
    symmetry. by apply assign_variant_returns.
  - unfold record_conversion. rewrite H.
    rewrite (assign_variant_returns _ _ _ _ H).
    destruct (assign_variant self exp_id user) as [v self1] eqn:Hassign.
    simpl in H1. rewrite H1. simpl. rewrite lookup_insert_eq.
    eexists. split; [reflexivity |].
    assert (v = variant_of exp_id user (split exp)) as ->.
    { rewrite <- (assign_variant_returns _ _ _ _ H), Hassign. reflexivity. }
    unfold conversions_of, other_variant.
    destruct (variant_of_cases exp_id user (split exp)) as [-> | ->];
      simpl; lia.
Qed.

Lemma assign_variant_consistent_witness :
  fst (assign_variant (snd (assign_variant ab_checkout "exp-0"
                              (sample_user "1" [])))
         "exp-0" (sample_user "1" []))
  = fst (assign_variant ab_checkout "exp-0" (sample_user "1" [])).
Proof.
  eapply (assign_variant_consistent ab_checkout "exp-0" (sample_user "1" [])).
  vm_compute. reflexivity.
Defined.

(** C10: for an experiment id the engine does not hold, [assign_variant]
    returns ['a'] and [record_conversion] returns, and neither changes the
    engine. *)
Theorem unknown_experiment_untouched self exp_id user :
  experiments self !! exp_id = None ->
  assign_variant self exp_id user = ("a"%string, self)
  /\ record_conversion self exp_id user = self.
Proof.
  intros H. unfold record_conversion, assign_variant. rewrite H. auto.
Qed.

Lemma unknown_experiment_untouched_witness :
  assign_variant ab_checkout "exp-7" (sample_user "1" [])
    = ("a"%string, ab_checkout)
  /\ record_conversion ab_checkout "exp-7" (sample_user "1" []) = ab_checkout.
Proof.
  apply (unknown_experiment_untouched ab_checkout "exp-7" (sample_user "1" [])).
  vm_compute. reflexivity.
Defined.

(** C9, amended: [create_experiment] checks nothing.  For every [split],
    in [0,1] or not, it returns the id [exp-<number of experiments>] and
    stores under it an experiment with exactly that split and four zero
    counters, every other id keeping its experiment. *)
Theorem create_experiment_stores_split self name a b (q : Q) :
  let exp_id := fst (create_experiment self name a b q) in
  let self' := snd (create_experiment self name a b q) in
  exp_id = "exp-" +:+ str_of_nat (size (experiments self))
  /\ experiments self' !! exp_id
     = Some {| exp_name := name; flag_a := a; flag_b := b; split := q;
               variant_a_count := 0; variant_b_count := 0;
               variant_a_conversions := 0; variant_b_conversions := 0 |}
  /\ (forall other, other <> exp_id ->
        experiments self' !! other = experiments self !! other).
Proof.
  unfold create_experiment. simpl. split; [reflexivity | split].
  - apply lookup_insert_eq.
  - intros other Hne. by apply lookup_insert_ne.
Qed.

(** C9 as stated fails: a split of 2 is accepted and stored as it is. *)
Lemma create_experiment_accepts_split_2 :
  exists exp,
    fst (create_experiment ab0 "t" "x" "y" 2) = "exp-0"%string
    /\ experiments (snd (create_experiment ab0 "t" "x" "y" 2)) !! "exp-0"
       = Some exp
    /\ split exp = 2%Q
    /\ ~ (split exp <= 1)%Q.
Proof.
  eexists. split; [reflexivity |]. split; [vm_compute; reflexivity |].
  split; [reflexivity |]. simpl. unfold Qle. simpl. lia.
Qed.

Lemma truediv_zero (n : Z) :
  1 <= n -> exists r, truediv (inject_Z 0) (inject_Z n) = Ok r /\ (r == 0)%Q.
Proof.
  intros Hn. unfold truediv.
  destruct (Qeq_bool (inject_Z n) 0) eqn:Hz.
  - apply Qeq_bool_iff in Hz. unfold Qeq in Hz. simpl in Hz. lia.
  - eexists. split; [reflexivity |]. unfold Qdiv. apply Qmult_0_l.
Qed.

(** Whenever neither variant has a conversion, the lift divides by zero. *)
Lemma get_results_no_conversion self exp_id exp :
  experiments self !! exp_id = Some exp ->
  variant_a_conversions exp = 0 ->
  variant_b_conversions exp = 0 ->
  get_results self exp_id = Raise ZeroDivisionError.
Proof.
  intros H Ha Hb. unfold get_results. rewrite H, Ha, Hb.
  destruct (truediv_zero (Z.max (variant_a_count exp) 1) ltac:(lia))
    as (ra & -> & Hra).
  destruct (truediv_zero (Z.max (variant_b_count exp) 1) ltac:(lia))
    as (rb & -> & Hrb).
  simpl. unfold truediv at 1.
  assert (Qeq_bool (py_max ra rb) 0 = true) as ->; [| reflexivity].
  apply Qeq_bool_iff. unfold py_max. by destruct (Qltb ra rb).
Qed.

(** C2: [get_results] on an experiment that has no assignment yet does
    not return rates and a lift of zero: the division that computes the
    lift raises [ZeroDivisionError]. *)
Theorem get_results_fresh_experiment_raises :
  get_results ab_checkout "exp-0" = Raise ZeroDivisionError.
Proof. vm_compute. reflexivity. Qed.

(** ** The registry under the operations of the system *)

Lemma evaluate_flag_after now self flag user :
  let flag' := flag_after (evaluate now self flag user) in
  evaluations flag' = evaluations flag + 1
  /\ enabled_count flag <= enabled_count flag' <= enabled_count flag + 1
  /\ enabled flag' = enabled flag.
Proof.
  unfold evaluate, flag_after. simpl.
  destruct (enabled flag) eqn:E; simpl; [| repeat split; lia || exact E].
  match goal with
  | |- context [if ?c then setattr _ _ else _] => destruct c
  end; simpl; repeat split; lia || exact E.
Qed.

Lemma fold_setattr_counters kwargs : forall flag,
  existsb names_counter kwargs = false ->
  evaluations (fold_left setattr kwargs flag) = evaluations flag
  /\ enabled_count (fold_left setattr kwargs flag) = enabled_count flag.
Proof.
  induction kwargs as [| kw kwargs IH]; intros flag H; simpl in *; [auto |].
  apply orb_false_elim in H as [Hkw H].
  destruct (IH (setattr flag kw) H) as [-> ->].
  destruct kw; simpl in *; auto; discriminate.
Qed.

Lemma fold_setattr_disabled kwargs : forall flag,
  existsb enables_kw kwargs = false ->
  enabled flag = false ->
  enabled (fold_left setattr kwargs flag) = false.
Proof.
  induction kwargs as [| kw kwargs IH]; intros flag H He; simpl in *; [auto |].
  apply orb_false_elim in H as [Hkw H].
  apply IH; [exact H |].
  destruct kw as [| | | [|] | | | | | | | | | |]; simpl in *; auto; discriminate.
Qed.

Lemma rollout_loop_frame fuel target_percentage step_size :
  forall current flag flag',
    rollout_loop fuel target_percentage step_size current flag = Some flag' ->
    evaluations flag' = evaluations flag
    /\ enabled_count flag' = enabled_count flag
    /\ enabled flag' = enabled flag.
Proof.
  induction fuel as [| fuel IH]; intros current flag flag' H; simpl in H;
    destruct (Qltb current target_percentage); try discriminate.
  - by injection H as <-.
  - apply IH in H. simpl in H. exact H.
  - by injection H as <-.
Qed.

(** A step leaves the registry alone or writes one flag. *)
Lemma step_flags ks op ks' :
  step ks op ks' ->
  flags (manager ks') = flags (manager ks)
  \/ exists key new,
       flag_written (flags (manager ks) !! key) key op new
       /\ flags (manager ks') = <[key := new]> (flags (manager ks)).
Proof.
  intros H. destruct H as [ks now now' key name description
                          | ks now key kwargs
                          | ks now key user
                          | ks fuel key target step_size m Hm
                          | ks now key reason
                          | ks key]; simpl.
  - right. eexists _, _. split; [constructor | reflexivity].
  - unfold update_flag. destruct (flags (manager ks) !! key) eqn:E; simpl;
      [right | by left].
    eexists _, _. rewrite E. split; [constructor | reflexivity].
  - unfold is_enabled. destruct (flags (manager ks) !! key) as [f |] eqn:E;
      simpl; [right | by left].
    exists key, (snd (evaluate now (targeting_engine (manager ks)) f user)).
    rewrite E. split; [constructor |].
    by destruct (evaluate now (targeting_engine (manager ks)) f user)
      as [[r e] f'].
  - unfold rollout_gradually in Hm.
    destruct (flags (manager ks) !! key) as [f |] eqn:E;
      [right | left; by injection Hm as <-].
    destruct (rollout_loop fuel target step_size _ _) as [new |] eqn:Hl;
      simpl in Hm; [| discriminate].
    injection Hm as <-. exists key, new. rewrite E.
    split; [econstructor; exact Hl | reflexivity].
  - unfold activate. destruct (flags (manager ks) !! key) eqn:E; simpl;
      [right | by left].
    eexists _, _. rewrite E. split; [constructor | reflexivity].
  - unfold deactivate. destruct (flags (manager ks) !! key) eqn:E; simpl;
      [right | by left].
    eexists _, _. rewrite E. split; [constructor | reflexivity].
Qed.

Lemma flag_written_counters old key op new :
  flag_written old key op new ->
  assigns_counter op = false ->
  (forall flag, old = Some flag -> counters_ok flag) ->
  counters_ok new.
Proof.
  unfold counters_ok.
  intros H Hop Hold. destruct H; simpl in *;
    try (specialize (Hold _ eq_refl)); try lia.
  - destruct (fold_setattr_counters kwargs old Hop) as [-> ->]. exact Hold.
  - pose proof (evaluate_flag_after now engine old user) as He.
    unfold flag_after in He. simpl in He. lia.
  - apply rollout_loop_frame in H. simpl in H. lia.
Qed.

Lemma flag_written_disabled old key op new :
  flag_written old key op new ->
  may_enable key op = false ->
  (forall flag, old = Some flag -> enabled flag = false) ->
  enabled new = false.
Proof.
  intros H Hop Hold. destruct H; simpl in *;
    try (specialize (Hold _ eq_refl)); try rewrite String.eqb_refl in Hop;
    simpl in *; try done.
  - by apply fold_setattr_disabled.
  - pose proof (evaluate_flag_after now engine old user) as He.
    unfold flag_after in He. simpl in He. destruct He as (_ & _ & ->). done.
  - apply rollout_loop_frame in H. simpl in H. destruct H as (_ & _ & ->). done.
Qed.

Lemma step_registry_ok ks op ks' :
  registry_ok ks -> assigns_counter op = false -> step ks op ks' ->
  registry_ok ks'.
Proof.
  intros Hok Hop Hstep key flag Hl.
  destruct (step_flags _ _ _ Hstep) as [Heq | (k & new & Hw & Heq)];
    rewrite Heq in Hl; [by eapply Hok |].
  apply lookup_insert_Some in Hl as [[-> ->] | [_ Hl]]; [| by eapply Hok].
  eapply flag_written_counters; [exact Hw | exact Hop |].
  intros f Hf. by eapply Hok.
Qed.

Lemma step_killed key ks op ks' :
  killed key ks -> may_enable key op = false -> step ks op ks' ->
  killed key ks'.
Proof.
  intros (f & Hf & He) Hop Hstep. unfold killed.
  destruct (step_flags _ _ _ Hstep) as [Heq | (k & new & Hw & Heq)];
    rewrite Heq; [eauto |].
  destruct (decide (k = key)) as [-> | Hne].
  - rewrite lookup_insert_eq. eexists. split; [reflexivity |].
    eapply flag_written_disabled; [exact Hw | exact Hop |].
    intros f' Hf'. congruence.
  - rewrite lookup_insert_ne by done. eauto.
Qed.

Lemma steps_killed key ks ops ks' :
  steps ks ops ks' ->
  killed key ks ->
  Forall (fun op => may_enable key op = false) ops ->
  killed key ks'.
Proof.
  induction 1 as [| ks op ks1 ops ks2 Hstep _ IH]; intros Hk Hops; [done |].
  apply Forall_cons in Hops as [Hop Hops].
  apply IH; [| done]. by eapply step_killed.
Qed.

Lemma steps_registry_ok ks ops ks' :
  steps ks ops ks' ->
  registry_ok ks ->
  Forall (fun op => assigns_counter op = false) ops ->
  registry_ok ks'.
Proof.
  induction 1 as [| ks op ks1 ops ks2 Hstep _ IH]; intros Hk Hops; [done |].
  apply Forall_cons in Hops as [Hop Hops].
  apply IH; [| done]. by eapply step_registry_ok.
Qed.

Lemma killed_evaluate key ks :
  killed key ks ->
  exists flag,
    flags (manager ks) !! key = Some flag
    /\ (forall now engine user, returned (evaluate now engine flag user) = false)
    /\ (forall now user, fst (is_enabled now (manager ks) key user) = false).
Proof.
  intros (flag & Hl & He). exists flag. split; [exact Hl | split].
  - intros now engine user. by apply evaluate_disabled.
  - intros now user. unfold is_enabled. rewrite Hl.
    pose proof (evaluate_disabled now (targeting_engine (manager ks)) flag
                  user He) as Hr.
    unfold returned in Hr.
    by destruct (evaluate now (targeting_engine (manager ks)) flag user)
      as [[r e] f].
Qed.

(** C3: on a key of the registry, [activate] returns true, switches that
    flag off, changes no other flag and appends one record holding the
    key, the reason and the time; from then on, through any calls that do
    not switch the flag back on, [evaluate] returns false for every user
    whatever the rollout strategy is or becomes, and [deactivate] switches
    the flag on again.  On a key that is absent [activate] returns false
    and changes nothing. *)
Theorem kill_switch_activate now ks flag_key reason :
  (forall flag0,
      flags (manager ks) !! flag_key = Some flag0 ->
      let ks1 := snd (activate now ks flag_key reason) in
      fst (activate now ks flag_key reason) = true
      /\ flags (manager ks1) !! flag_key = Some (setattr flag0 (kw_enabled false))
      /\ (forall other, other <> flag_key ->
            flags (manager ks1) !! other = flags (manager ks) !! other)
      /\ activated_switches ks1
         = activated_switches ks
             ++ [ {| flag := flag_key; reason := reason; timestamp := now |} ]
      /\ (forall ops ks2,
            steps ks1 ops ks2 ->
            Forall (fun op => may_enable flag_key op = false) ops ->
            exists flag2,
              flags (manager ks2) !! flag_key = Some flag2
              /\ (forall now' engine user,
                    returned (evaluate now' engine flag2 user) = false)
              /\ (forall now' user,
                    fst (is_enabled now' (manager ks2) flag_key user) = false))
      /\ (exists flag3,
            flags (manager (snd (deactivate ks1 flag_key))) !! flag_key
              = Some flag3
            /\ enabled flag3 = true))
  /\ (flags (manager ks) !! flag_key = None ->
      activate now ks flag_key reason = (false, ks)).
Proof.
  split.
  - intros flag0 H. unfold activate. rewrite H. simpl.
    assert (Hk : killed flag_key
                   (snd (activate now ks flag_key reason))).
    { unfold activate, killed. rewrite H. simpl. rewrite lookup_insert_eq.
      eexists. split; reflexivity. }
    unfold activate in Hk. rewrite H in Hk. simpl in Hk.
    repeat split.
    + apply lookup_insert_eq.
    + intros other Hne. by apply lookup_insert_ne.
    + intros ops ks2 Hsteps Hops. apply killed_evaluate.
      by eapply steps_killed.
    + unfold deactivate. simpl. rewrite lookup_insert_eq. simpl.
      rewrite lookup_insert_eq. eexists. split; reflexivity.
  - intros H. unfold activate. by rewrite H.
Qed.

Lemma kill_switch_activate_witness :
  fst (activate 7 system_f "f" "Performance issues detected") = true
  /\ activate 7 system_f "new_ui" "Performance issues detected"
     = (false, system_f).
Proof.
  split.
  - apply (proj1 (kill_switch_activate 7 system_f "f"
                    "Performance issues detected") flag_f).
    vm_compute. reflexivity.
  - apply (proj2 (kill_switch_activate 7 system_f "new_ui"
                    "Performance issues detected")).
    vm_compute. reflexivity.
Defined.

(** C4, amended: [enabled_count <= evaluations] is kept by every call of
    [evaluate], and the registry keeps it for all its flags through
    [create_flag], [is_enabled], [rollout_gradually], the kill switch, and
    every [update_flag] whose keyword arguments name neither
    [evaluations] nor [enabled_count]. *)
Theorem counters_invariant now self flag user ks op ks' :
  counters_ok flag ->
  registry_ok ks ->
  assigns_counter op = false ->
  step ks op ks' ->
  counters_ok (flag_after (evaluate now self flag user)) /\ registry_ok ks'.
Proof.
  intros Hflag Hks Hop Hstep. split.
  - pose proof (evaluate_flag_after now self flag user) as He. simpl in He.
    unfold counters_ok in *. lia.
  - by eapply step_registry_ok.
Qed.

Lemma system_f_ok : registry_ok system_f.
Proof.
  intros key flag H. simpl in H. apply lookup_singleton_Some in H as [_ <-].
  unfold counters_ok. simpl. lia.
Qed.

Lemma counters_invariant_witness :
  counters_ok (flag_after (evaluate 3 engine0 flag_f (sample_user "1" [])))
  /\ registry_ok
       (with_manager system_f
          (snd (update_flag 5 (manager system_f) "f"
                  [kw_rollout_strategy PERCENTAGE;
                   kw_rollout_percentage (1 # 4)]))).
Proof.
  apply (counters_invariant 3 engine0 flag_f (sample_user "1" []) system_f
           (op_update_flag "f"
              [kw_rollout_strategy PERCENTAGE; kw_rollout_percentage (1 # 4)])).
  - unfold counters_ok. simpl. lia.
  - exact system_f_ok.
  - reflexivity.
  - apply step_update_flag.
Defined.

(** C4 as stated fails: [update_flag] with [enabled_count=1] on a fresh
    flag leaves [enabled_count = 1] above [evaluations = 0]. *)
Lemma update_flag_breaks_counters :
  let ks' :=
    with_manager system_f
      (snd (update_flag 5 (manager system_f) "f" [kw_enabled_count 1])) in
  registry_ok system_f
  /\ step system_f (op_update_flag "f" [kw_enabled_count 1]) ks'
  /\ ~ registry_ok ks'.
Proof.
  simpl. split; [exact system_f_ok | split].
  - apply (step_update_flag system_f 5 "f" [kw_enabled_count 1]).
  - intros H.
    specialize (H "f"%string
                  (setattr (setattr flag_f (kw_enabled_count 1))
                     (kw_updated_at 5))).
    unfold counters_ok in H. simpl in H.
    assert (1 <= 0) as Habs; [apply H; vm_compute; reflexivity | lia].
Qed.

(** ** Further properties of the strategies *)

(** A bucket is below [k/100] exactly when the hash modulo 100 is below
    [k]. *)
Lemma percentage_lt_bucket (s : string) (k : Z) :
  (percentage s < k # 100)%Q <-> hash_value s mod 100 < k.
Proof.
  unfold percentage. generalize (hash_value s mod 100). intros b.
  unfold Qlt, Qdiv, Qmult, Qinv, inject_Z. simpl. lia.
Qed.

Lemma Qltb_py_min (x a b : Q) :
  Qltb x (py_min a b) = true <-> (x < a)%Q /\ (x < b)%Q.
Proof.
  unfold py_min. destruct (Qltb b a) eqn:E; rewrite Qltb_lt;
    [apply Qltb_lt in E | apply Qltb_ge in E];
    (split; [intros H; split; lra | intros [H1 H2]; lra]).
Qed.

Lemma elapsed_hours_mono now1 now2 flag :
  now1 <= now2 -> (elapsed_hours now1 flag <= elapsed_hours now2 flag)%Q.
Proof.
  intros H. unfold elapsed_hours.
  assert (inject_Z (now1 - created_at flag)
          <= inject_Z (now2 - created_at flag))%Q as Hq
    by (rewrite <- Zle_Qle; lia).
  unfold Qdiv. repeat apply Qmult_le_compat_r; [exact Hq | done | done].
Qed.

(** Canary: whoever passes under Canary passes under Percentage at the
    same [rollout_percentage], that percentage is at most 0.05, and the
    user's bucket is one of the first five. *)
Theorem canary_subset now self flag user :
  returned
    (evaluate now self (setattr flag (kw_rollout_strategy CANARY)) user)
  = true ->
  returned
    (evaluate now self (setattr flag (kw_rollout_strategy PERCENTAGE)) user)
  = true
  /\ (rollout_percentage flag <= 5 # 100)%Q
  /\ hash_value (key flag +:+ ":" +:+ id user) mod 100 < 5.
Proof.
  rewrite !evaluate_returned. simpl.
  unfold _evaluate_canary, _evaluate_percentage. simpl.
  destruct (enabled flag); simpl; [| discriminate].
  intros H. apply andb_true_iff in H as [Hp Hc].
  apply Qle_bool_iff in Hc. split; [exact Hp | split; [exact Hc |]].
  apply percentage_lt_bucket. apply Qltb_lt in Hp.
  eapply Qlt_le_trans; eassumption.
Qed.

Lemma canary_subset_witness :
  hash_value ("f" +:+ ":" +:+ "5") mod 100 < 5.
Proof.
  apply (canary_subset 0 engine0
           (setattr flag_f (kw_rollout_percentage (5 # 100)))
           (sample_user "5" [])).
  vm_compute. reflexivity.
Defined.

(** Canary: above a [rollout_percentage] of 0.05 nobody passes. *)
Theorem canary_guard now self flag user :
  rollout_strategy flag = CANARY ->
  (5 # 100 < rollout_percentage flag)%Q ->
  returned (evaluate now self flag user) = false.
Proof.
  intros Hs Hp. rewrite evaluate_returned, Hs. unfold _evaluate_canary.
  assert (Qle_bool (rollout_percentage flag) (5 # 100) = false) as ->.
  { apply not_true_iff_false. rewrite Qle_bool_iff. by apply Qlt_not_le. }
  by rewrite !andb_false_r.
Qed.

Lemma canary_guard_witness :
  returned
    (evaluate 0 engine0
       (setattr (setattr flag_f (kw_rollout_strategy CANARY))
          (kw_rollout_percentage (1 # 2)))
       (sample_user "5" [])) = false.
Proof.
  apply canary_guard; reflexivity.
Defined.

(** Percentage: at [rollout_percentage <= 0] nobody passes, and at
    [rollout_percentage >= 1] every user of an enabled flag passes. *)
Theorem percentage_extremes now self flag user :
  rollout_strategy flag = PERCENTAGE ->
  ((rollout_percentage flag <= 0)%Q ->
   returned (evaluate now self flag user) = false)
  /\ (enabled flag = true -> (1 <= rollout_percentage flag)%Q ->
      returned (evaluate now self flag user) = true).
Proof.
  intros Hs. rewrite evaluate_returned, Hs. unfold _evaluate_percentage.
  pose proof (percentage_range (key flag +:+ ":" +:+ id user)) as [Hlo Hhi].
  split.
  - intros Hp.
    assert (Qltb (percentage (key flag +:+ ":" +:+ id user))
              (rollout_percentage flag) = false) as ->
      by (apply Qltb_ge; lra).
    apply andb_false_r.
  - intros -> Hp. simpl. apply Qltb_lt. lra.
Qed.

Lemma percentage_extremes_witness :
  returned
    (evaluate 0 engine0 (setattr flag_f (kw_rollout_strategy PERCENTAGE))
       (sample_user "5" [])) = false.
Proof.
  apply (percentage_extremes 0 engine0
           (setattr flag_f (kw_rollout_strategy PERCENTAGE))
           (sample_user "5" [])).
  - reflexivity.
  - simpl. unfold Qle. simpl. lia.
Defined.

(** Percentage: at [rollout_percentage = k/100] the users who pass are
    those whose hash modulo 100 is below [k]. *)
Theorem percentage_bucket now self flag user (k : Z) :
  enabled flag = true ->
  rollout_strategy flag = PERCENTAGE ->
  (rollout_percentage flag == k # 100)%Q ->
  returned (evaluate now self flag user) = true
  <-> hash_value (key flag +:+ ":" +:+ id user) mod 100 < k.
Proof.
  intros He Hs Hq. rewrite evaluate_returned, He, Hs. simpl.
  unfold _evaluate_percentage. rewrite Qltb_lt, Hq.
  apply percentage_lt_bucket.
Qed.

Lemma percentage_bucket_witness :
  returned
    (evaluate 0 engine0
       (setattr (setattr flag_f (kw_rollout_strategy PERCENTAGE))
          (kw_rollout_percentage (1 # 4)))
       (sample_user "1" [])) = true
  <-> hash_value ("f" +:+ ":" +:+ "1") mod 100 < 25.
Proof.
  apply (percentage_bucket 0 engine0
           (setattr (setattr flag_f (kw_rollout_strategy PERCENTAGE))
              (kw_rollout_percentage (1 # 4)))
           (sample_user "1" []) 25); reflexivity.
Defined.

(** Gradual: a user who passes at one time passes at every later time. *)
Theorem gradual_monotone_in_time now1 now2 self1 self2 flag user :
  now1 <= now2 ->
  rollout_strategy flag = GRADUAL ->
  returned (evaluate now1 self1 flag user) = true ->
  returned (evaluate now2 self2 flag user) = true.
Proof.
  intros Hn Hs. rewrite !evaluate_returned, Hs.
  destruct (enabled flag); simpl; [| done].
  unfold _evaluate_gradual. rewrite !Qltb_py_min. intros [H1 H2].
  split; [exact H1 |].
  pose proof (elapsed_hours_mono now1 now2 flag Hn). lra.
Qed.

Lemma gradual_monotone_in_time_witness :
  returned
    (evaluate 7200000000 engine0 (setattr flag_f (kw_rollout_strategy GRADUAL))
       (sample_user "1" [])) = true.
Proof.
  apply (gradual_monotone_in_time 3600000000 7200000000 engine0 engine0
           (setattr flag_f (kw_rollout_strategy GRADUAL))
           (sample_user "1" [])).
  - lia.
  - reflexivity.
  - vm_compute. reflexivity.
Defined.

(** Gradual: up to the time of creation nobody passes. *)
Theorem gradual_not_started now self flag user :
  now <= created_at flag ->
  rollout_strategy flag = GRADUAL ->
  returned (evaluate now self flag user) = false.
Proof.
  intros Hn Hs. rewrite evaluate_returned, Hs. unfold _evaluate_gradual.
  destruct (Qltb _ (py_min _ _)) eqn:E; [| apply andb_false_r].
  apply Qltb_py_min in E as [_ E].
  pose proof (percentage_range (key flag +:+ ":" +:+ id user)) as [Hlo _].
  pose proof (elapsed_hours_mono now (created_at flag) flag Hn) as Hel.
  assert (elapsed_hours (created_at flag) flag == 0)%Q as H0.
  { unfold elapsed_hours. rewrite Z.sub_diag. reflexivity. }
  exfalso. lra.
Qed.

Lemma gradual_not_started_witness :
  returned
    (evaluate 0 engine0 (setattr flag_f (kw_rollout_strategy GRADUAL))
       (sample_user "2" [])) = false.
Proof.
  apply gradual_not_started; [simpl; lia | reflexivity].
Defined.

(** An evaluation does not change any later decision: the result on the
    flag as [evaluate] left it is the result on the flag as it was. *)
Theorem evaluate_decision_stable now now' self self' flag user user' :
  returned (evaluate now' self' (flag_after (evaluate now self flag user)) user')
  = returned (evaluate now' self' flag user').
Proof.
  rewrite !evaluate_returned. unfold evaluate, flag_after. simpl.
  destruct (enabled flag) eqn:E; simpl; [| by rewrite E].
  match goal with
  | |- context [if ?c then setattr _ _ else _] => destruct c
  end; simpl; by rewrite E.
Qed.

(** Targeted, as the code decides it: an enabled Targeted flag passes a
    user exactly when the id is a target user, or a group is a target
    group, or an expected attribute value equals what [attributes.get]
    returns; for an attribute the user lacks that is [None], which equals
    only an expected [None]. *)
Theorem targeted_rule_exact now self flag user :
  enabled flag = true ->
  rollout_strategy flag = TARGETED ->
  (returned (evaluate now self flag user) = true
   <-> targeted_code_rule flag user)
  /\ (forall attr value,
        attributes user !! attr = None ->
        attribute_matches user attr value = true <-> value = VNone).
Proof.
  intros He Hs. split.
  - rewrite evaluate_returned, He, Hs. simpl.
    unfold _evaluate_targeted, targeted_code_rule.
    destruct (bool_decide (id user ∈ target_users flag)) eqn:Hu.
    { apply bool_decide_eq_true in Hu. tauto. }
    apply bool_decide_eq_false in Hu.
    destruct (existsb _ (groups user)) eqn:Hg.
    { apply existsb_exists in Hg as (g & Hin & Hd).
      apply bool_decide_eq_true in Hd. apply list_elem_of_In in Hin.
      split; [intros _ | reflexivity]. right; left. eauto. }
    rewrite existsb_exists. split.
    + intros ([attr value] & Hin & Hm).
      apply list_elem_of_In, elem_of_map_to_list in Hin.
      right; right. eauto.
    + intros [Hin | [(g & Hin & Hd) | (attr & value & Ht & Hm)]].
      * contradiction.
      * assert (existsb (fun group => bool_decide (group ∈ target_groups flag))
                  (groups user) = true) as Hg'; [| congruence].
        apply existsb_exists. exists g.
        split; [by apply list_elem_of_In | by apply bool_decide_eq_true].
      * exists (attr, value).
        split; [by apply list_elem_of_In, elem_of_map_to_list | exact Hm].
  - intros attr value Ha. unfold attribute_matches, dict_get. rewrite Ha.
    split; [apply py_eq_None_l | by intros ->].
Qed.

Lemma targeted_rule_exact_witness :
  returned (evaluate 0 engine0 flag_plan_none (sample_user "1" [])) = true
  <-> targeted_code_rule flag_plan_none (sample_user "1" []).
Proof.
  exact (proj1 (targeted_rule_exact 0 engine0 flag_plan_none
                  (sample_user "1" []) eq_refl eq_refl)).
Defined.

(** Targeted with no target user, group or attribute passes nobody. *)
Theorem targeted_no_targets now self flag user :
  rollout_strategy flag = TARGETED ->
  target_users flag = ∅ ->
  target_groups flag = ∅ ->
  target_attributes flag = ∅ ->
  returned (evaluate now self flag user) = false.
Proof.
  intros Hs Hu Hg Ha. rewrite evaluate_returned, Hs.
  unfold _evaluate_targeted. rewrite Hu, Hg, Ha, map_to_list_empty. simpl.
  rewrite bool_decide_eq_false_2 by set_solver.
  destruct (existsb _ (groups user)) eqn:E; [| apply andb_false_r].
  apply existsb_exists in E as (g & _ & Hd).
  apply bool_decide_eq_true in Hd. set_solver.
Qed.

Lemma targeted_no_targets_witness :
  returned
    (evaluate 0 engine0 (setattr flag_f (kw_rollout_strategy TARGETED))
       (sample_user "1" [ "premium"%string ])) = false.
Proof.
  apply targeted_no_targets; reflexivity.
Defined.

(** ** The manager *)

Lemma evaluate_counts now self flag user r engine flag' :
  evaluate now self flag user = (r, engine, flag') ->
  evaluations flag' = evaluations flag + 1
  /\ enabled_count flag' = enabled_count flag + (if r then 1 else 0)
  /\ engine_evaluations engine = engine_evaluations self + 1
  /\ key flag' = key flag.
Proof.
  unfold evaluate. simpl. destruct (enabled flag); simpl.
  - match goal with
    | |- context [if ?c then setattr _ _ else _] => destruct c
    end; intros [= <- <- <-]; simpl; repeat split; lia.
  - intros [= <- <- <-]; simpl; repeat split; lia.
Qed.

Lemma is_enabled_present now self key user flag :
  flags self !! key = Some flag ->
  exists r engine flag',
    evaluate now (targeting_engine self) flag user = (r, engine, flag')
    /\ is_enabled now self key user
       = (r, {| flags := <[key := flag']> (flags self);
                targeting_engine := engine |}).
Proof.
  intros H. unfold is_enabled. rewrite H.
  destruct (evaluate now (targeting_engine self) flag user)
    as [[r engine] flag'].
  by exists r, engine, flag'.
Qed.

(** A run of [is_enabled] calls on a key of the registry adds the number
    of calls to the flag's [evaluations] and to the engine's counter, and
    the number of true results to the flag's [enabled_count]. *)
Theorem is_enabled_each_counters calls : forall self key flag,
  flags self !! key = Some flag ->
  exists flag',
    flags (snd (is_enabled_each self key calls)) !! key = Some flag'
    /\ evaluations flag' = evaluations flag + Z.of_nat (length calls)
    /\ enabled_count flag'
       = enabled_count flag
         + Z.of_nat (length (List.filter (fun b : bool => b)
                               (fst (is_enabled_each self key calls))))
    /\ engine_evaluations
         (targeting_engine (snd (is_enabled_each self key calls)))
       = engine_evaluations (targeting_engine self) + Z.of_nat (length calls)
    /\ length (fst (is_enabled_each self key calls)) = length calls.
Proof.
  induction calls as [| [now user] calls IH]; intros self key flag H.
  - exists flag. simpl. repeat split; (exact H || lia).
  - destruct (is_enabled_present now self key user flag H)
      as (r & engine & flag1 & Hev & Hie).
    apply evaluate_counts in Hev as (He & Hc & Hn & _).
    simpl. rewrite Hie.
    match goal with
    | |- context [is_enabled_each ?m key calls] =>
        destruct (IH m key flag1 (lookup_insert_eq _ _ _))
          as (flag' & Hl & He' & Hc' & Hn' & Hlen);
        destruct (is_enabled_each m key calls) as [rs self'] eqn:Hrun
    end.
    simpl in *. exists flag'. split; [exact Hl |].
    destruct r; simpl; repeat split; lia.
Qed.

Lemma is_enabled_each_counters_witness :
  exists flag',
    flags (snd (is_enabled_each (manager system_f) "f"
                  [ (1, sample_user "1" []); (2, sample_user "2" []) ]))
      !! "f" = Some flag'
    /\ evaluations flag' = 2.
Proof.
  destruct (is_enabled_each_counters
              [ (1, sample_user "1" []); (2, sample_user "2" []) ]
              (manager system_f) "f" flag_f)
    as (flag' & Hl & He & _).
  - vm_compute. reflexivity.
  - exists flag'. split; [exact Hl | exact He].
Defined.

(** On a key the registry does not hold, [update_flag] and [is_enabled]
    return false, [deactivate] returns false, [rollout_gradually]
    returns at once, and none of them changes anything: no counter moves
    and the engine is not called. *)
Theorem missing_flag_untouched now fuel ks key kwargs user target step_size :
  flags (manager ks) !! key = None ->
  update_flag now (manager ks) key kwargs = (false, manager ks)
  /\ is_enabled now (manager ks) key user = (false, manager ks)
  /\ rollout_gradually fuel (manager ks) key target step_size
     = Some (manager ks)
  /\ deactivate ks key = (false, ks).
Proof.
  intros H. unfold update_flag, is_enabled, rollout_gradually, deactivate.
  rewrite H. auto.
Qed.

Lemma missing_flag_untouched_witness :
  is_enabled 0 (manager system_f) "new_ui" (sample_user "1" [])
  = (false, manager system_f).
Proof.
  apply (missing_flag_untouched 0 0 system_f "new_ui" [] (sample_user "1" [])
           1 1).
  vm_compute. reflexivity.
Defined.

(** [create_flag] stores a disabled flag with zero counters under the
    key, replacing whatever flag the key held and touching no other key;
    [is_enabled] on that key then returns false for every user. *)
Theorem create_flag_replaces now now' self key name description :
  let flag := fst (create_flag now now' self key name description) in
  let self' := snd (create_flag now now' self key name description) in
  flags self' !! key = Some flag
  /\ enabled flag = false
  /\ evaluations flag = 0
  /\ enabled_count flag = 0
  /\ (forall other, other <> key -> flags self' !! other = flags self !! other)
  /\ (forall t user, fst (is_enabled t self' key user) = false).
Proof.
  simpl. rewrite lookup_insert_eq. repeat split.
  - intros other Hne. by apply lookup_insert_ne.
  - intros t user. unfold is_enabled. simpl. rewrite lookup_insert_eq.
    reflexivity.
Qed.

(** ** The registry: keys, audit log, kill-switch round trip *)

Lemma fold_setattr_key kwargs : forall flag,
  existsb names_key kwargs = false ->
  key (fold_left setattr kwargs flag) = key flag.
Proof.
  induction kwargs as [| kw kwargs IH]; intros flag H; simpl in *; [auto |].
  apply orb_false_elim in H as [Hkw H]. rewrite (IH _ H).
  destruct kw; simpl in *; auto; discriminate.
Qed.

Lemma py_min_le_l (a b : Q) : (py_min a b <= a)%Q.
Proof.
  unfold py_min. destruct (Qltb b a) eqn:E; [| apply Qle_refl].
  apply Qltb_lt in E. by apply Qlt_le_weak.
Qed.

Lemma py_min_le_r (a b : Q) : (py_min a b <= b)%Q.
Proof.
  unfold py_min. destruct (Qltb b a) eqn:E; [apply Qle_refl |].
  by apply Qltb_ge in E.
Qed.

(** The loop changes [rollout_percentage] only, and when it runs it ends
    on the target. *)
Lemma rollout_loop_result fuel target step_size :
  forall current flag flag',
    rollout_loop fuel target step_size current flag = Some flag' ->
    exists p,
      flag' = (if Qltb current target
               then setattr flag (kw_rollout_percentage p) else flag)
      /\ (Qltb current target = true -> (p == target)%Q).
Proof.
  induction fuel as [| fuel IH]; intros current flag flag' H; simpl in H;
    destruct (Qltb current target) eqn:E; try discriminate.
  - injection H as <-. exists 0%Q. split; [reflexivity | discriminate].
  - apply IH in H as (p & -> & Hp).
    destruct (Qltb (py_min (current + step_size) target) target) eqn:E'.
    + exists p. split; [reflexivity | auto].
    + exists (py_min (current + step_size) target).
      split; [reflexivity | intros _].
      apply Qltb_ge in E'. apply Qle_antisym; [apply py_min_le_r | exact E'].
  - injection H as <-. exists 0%Q. split; [reflexivity | discriminate].
Qed.

Lemma rollout_loop_stuck fuel target step_size :
  (step_size <= 0)%Q ->
  forall current flag,
    (current < target)%Q ->
    rollout_loop fuel target step_size current flag = None.
Proof.
  intros Hs. induction fuel as [| fuel IH]; intros current flag Hc; simpl;
    rewrite (proj2 (Qltb_lt current target) Hc); [reflexivity |].
  apply IH. pose proof (py_min_le_l (current + step_size) target). lra.
Qed.

Lemma flag_written_key old k op new :
  flag_written old k op new ->
  renames op = false ->
  (forall flag, old = Some flag -> key flag = k) ->
  key new = k.
Proof.
  intros H Hop Hold. destruct H; simpl in *;
    try (specialize (Hold _ eq_refl)); try done.
  - by rewrite fold_setattr_key.
  - destruct (evaluate now engine old user) as [[r e] f] eqn:Hev.
    apply evaluate_counts in Hev as (_ & _ & _ & Hk). simpl. congruence.
  - apply rollout_loop_result in H as (p & -> & _).
    by destruct (Qltb _ target_percentage).
Qed.

Lemma flag_written_present old k op new :
  flag_written old k op new -> creates op = false -> is_Some old.
Proof. intros H Hop. destruct H; simpl in *; by eauto. Qed.

Lemma step_keys_ok ks op ks' :
  keys_ok ks -> renames op = false -> step ks op ks' -> keys_ok ks'.
Proof.
  intros Hok Hop Hstep k flag Hl.
  destruct (step_flags _ _ _ Hstep) as [Heq | (k' & new & Hw & Heq)];
    rewrite Heq in Hl; [by eapply Hok |].
  apply lookup_insert_Some in Hl as [[-> ->] | [_ Hl]]; [| by eapply Hok].
  eapply flag_written_key; [exact Hw | exact Hop |].
  intros f Hf. by eapply Hok.
Qed.

(** Every flag stays stored under its own [key] through any calls among
    which no [update_flag] names [key]; the bucket of a user is then the
    hash of the registry key and the user id. *)
Theorem steps_keys_ok ks ops ks' :
  steps ks ops ks' ->
  keys_ok ks ->
  Forall (fun op => renames op = false) ops ->
  keys_ok ks'.
Proof.
  induction 1 as [| ks op ks1 ops ks2 Hstep _ IH]; intros Hk Hops; [done |].
  apply Forall_cons in Hops as [Hop Hops].
  apply IH; [| done]. by eapply step_keys_ok.
Qed.

Lemma system_f_keys_ok : keys_ok system_f.
Proof.
  intros k flag H. simpl in H. by apply lookup_singleton_Some in H as [<- <-].
Qed.

Lemma steps_keys_ok_witness :
  keys_ok
    (with_manager
       (with_manager system_f
          (snd (is_enabled 1 (manager system_f) "f" (sample_user "1" []))))
       (snd (update_flag 2
               (snd (is_enabled 1 (manager system_f) "f" (sample_user "1" [])))
               "f" [kw_name "G"]))).
Proof.
  apply (steps_keys_ok system_f
           [op_is_enabled "f" (sample_user "1" []);
            op_update_flag "f" [kw_name "G"]]).
  - eapply steps_cons; [apply (step_is_enabled system_f 1) |].
    eapply steps_cons; [| apply steps_nil].
    apply (step_update_flag
             (with_manager system_f
                (snd (is_enabled 1 (manager system_f) "f"
                        (sample_user "1" [])))) 2).
  - exact system_f_keys_ok.
  - repeat constructor.
Defined.

Lemma step_dom ks op ks' :
  step ks op ks' ->
  dom (flags (manager ks)) ⊆ dom (flags (manager ks'))
  /\ (creates op = false ->
      dom (flags (manager ks')) = dom (flags (manager ks))).
Proof.
  intros Hstep.
  destruct (step_flags _ _ _ Hstep) as [-> | (k & new & Hw & ->)];
    [split; [done | by intros _] |].
  rewrite dom_insert_L. split; [apply union_subseteq_r |].
  intros Hop. apply (flag_written_present _ _ _ _ Hw) in Hop.
  apply elem_of_dom in Hop. apply subseteq_union_1_L.
  by apply singleton_subseteq_l.
Qed.

(** No call removes a flag from the registry, and only [create_flag] adds
    a key. *)
Theorem steps_keys_kept ks ops ks' :
  steps ks ops ks' ->
  dom (flags (manager ks)) ⊆ dom (flags (manager ks'))
  /\ (Forall (fun op => creates op = false) ops ->
      dom (flags (manager ks')) = dom (flags (manager ks))).
Proof.
  induction 1 as [| ks op ks1 ops ks2 Hstep _ [IHs IHe]]; [by split |].
  destruct (step_dom _ _ _ Hstep) as [Hs He]. split.
  - by etrans.
  - intros Hops. apply Forall_cons in Hops as [Hop Hops].
    rewrite (IHe Hops). by apply He.
Qed.

Lemma steps_keys_kept_witness :
  dom (flags (manager (snd (activate 3 system_f "f" "stop"))))
  = dom (flags (manager system_f)).
Proof.
  apply (proj2 (steps_keys_kept system_f [op_activate "f" "stop"]
                  (snd (activate 3 system_f "f" "stop"))
                  (steps_cons _ _ _ _ _ (step_activate system_f 3 "f" "stop")
                     (steps_nil _)))).
  repeat constructor.
Defined.

Lemma step_log ks op ks' :
  step ks op ks' ->
  exists suffix,
    activated_switches ks' = activated_switches ks ++ suffix
    /\ (length suffix <= if is_activate op then 1 else 0)%nat.
Proof.
  intros H. destruct H; simpl;
    try (exists []; rewrite app_nil_r; split; [reflexivity | simpl; lia]).
  - unfold activate. destruct (flags (manager ks) !! flag_key); simpl.
    + eexists. split; [reflexivity | simpl; lia].
    + exists []. rewrite app_nil_r. split; [reflexivity | simpl; lia].
  - unfold deactivate. destruct (flags (manager ks) !! flag_key); simpl;
      exists []; rewrite app_nil_r; (split; [reflexivity | simpl; lia]).
Qed.

(** The kill-switch log is append-only: after any calls the old log is a
    prefix of the new one, and it has grown by at most one record per
    [activate] call. *)
Theorem steps_log_append_only ks ops ks' :
  steps ks ops ks' ->
  exists suffix,
    activated_switches ks' = activated_switches ks ++ suffix
    /\ (length suffix <= length (List.filter is_activate ops))%nat.
Proof.
  induction 1 as [| ks op ks1 ops ks2 Hstep _ (suffix2 & -> & Hlen2)].
  - exists []. rewrite app_nil_r. split; [reflexivity | simpl; lia].
  - destruct (step_log _ _ _ Hstep) as (suffix1 & -> & Hlen1).
    exists (suffix1 ++ suffix2). rewrite app_assoc. split; [reflexivity |].
    rewrite length_app. simpl. destruct (is_activate op); simpl; lia.
Qed.

Lemma steps_log_append_only_witness :
  exists suffix,
    activated_switches (snd (activate 3 system_f "f" "stop"))
    = activated_switches system_f ++ suffix
    /\ (length suffix <= 1)%nat.
Proof.
  apply (steps_log_append_only system_f [op_activate "f" "stop"]).
  eapply steps_cons; [apply (step_activate system_f 3) | apply steps_nil].
Defined.

(** [deactivate] after [activate] leaves the flag switched on, whatever
    it was before: the registry is as it was exactly when the flag was
    enabled before, and the record of the activation stays in the log. *)
Theorem activate_deactivate now ks flag_key reason flag0 :
  flags (manager ks) !! flag_key = Some flag0 ->
  let ks2 := snd (deactivate (snd (activate now ks flag_key reason)) flag_key) in
  flags (manager ks2)
  = <[flag_key := setattr flag0 (kw_enabled true)]> (flags (manager ks))
  /\ targeting_engine (manager ks2) = targeting_engine (manager ks)
  /\ activated_switches ks2
     = activated_switches ks
         ++ [ {| flag := flag_key; reason := reason; timestamp := now |} ]
  /\ (enabled flag0 = true -> manager ks2 = manager ks).
Proof.
  intros H. unfold activate. rewrite H. simpl.
  unfold deactivate. simpl. rewrite lookup_insert_eq. simpl.
  rewrite insert_insert_eq. repeat split.
  intros He.
  assert (setattr (setattr flag0 (kw_enabled false)) (kw_enabled true) = flag0)
    as ->.
  { destruct flag0; simpl in *; by subst. }
  rewrite insert_id by exact H. by destruct (manager ks).
Qed.

Lemma activate_deactivate_witness :
  manager (snd (deactivate (snd (activate 3 system_f "f" "stop")) "f"))
  = manager system_f.
Proof.
  apply (activate_deactivate 3 system_f "f" "stop" flag_f);
    vm_compute; reflexivity.
Defined.

(** ** rollout_gradually *)

(** When [rollout_gradually] returns on a key of the registry, the flag
    has the Percentage strategy and nothing else changed but its
    [rollout_percentage]: that is the target if it was below the target,
    and what it was otherwise. *)
Theorem rollout_gradually_result fuel self key target step_size flag0 self' :
  flags self !! key = Some flag0 ->
  rollout_gradually fuel self key target step_size = Some self' ->
  exists p,
    flags self'
    = <[key := setattr (setattr flag0 (kw_rollout_strategy PERCENTAGE))
                 (kw_rollout_percentage p)]> (flags self)
    /\ targeting_engine self' = targeting_engine self
    /\ ((rollout_percentage flag0 < target)%Q -> (p == target)%Q)
    /\ ((target <= rollout_percentage flag0)%Q -> p = rollout_percentage flag0).
Proof.
  intros H Hr. unfold rollout_gradually in Hr. rewrite H in Hr. simpl in Hr.
  destruct (rollout_loop _ _ _ _ _) as [flag' |] eqn:Hl; simpl in Hr;
    [| discriminate].
  injection Hr as <-. simpl.
  apply rollout_loop_result in Hl as (p & -> & Hp).
  destruct (Qltb (rollout_percentage flag0) target) eqn:E.
  - exists p. repeat split; [auto |].
    intros Hge. apply Qltb_lt in E. exfalso. lra.
  - exists (rollout_percentage flag0). repeat split.
    intros Hlt. apply Qltb_ge in E. exfalso. lra.
Qed.

Lemma rollout_gradually_result_witness :
  exists self' p,
    rollout_gradually 10 (manager system_f) "f" (1 # 2) (1 # 10) = Some self'
    /\ flags self'
       = <[ "f"%string :=
              setattr (setattr flag_f (kw_rollout_strategy PERCENTAGE))
                (kw_rollout_percentage p) ]> (flags (manager system_f))
    /\ (p == 1 # 2)%Q.
Proof.
  destruct (rollout_gradually 10 (manager system_f) "f" (1 # 2) (1 # 10))
    as [self' |] eqn:E; [| vm_compute in E; discriminate].
  destruct (rollout_gradually_result 10 (manager system_f) "f" (1 # 2)
              (1 # 10) flag_f self' eq_refl E) as (p & Hf & _ & Hp & _).
  exists self', p. split; [reflexivity | split; [exact Hf |]].
  apply Hp. reflexivity.
Defined.

(** With a step that is zero or negative and a target above the current
    percentage, the loop of [rollout_gradually] never ends: no number of
    iterations returns. *)
Theorem rollout_gradually_never_ends fuel self key target step_size flag0 :
  flags self !! key = Some flag0 ->
  (step_size <= 0)%Q ->
  (rollout_percentage flag0 < target)%Q ->
  rollout_gradually fuel self key target step_size = None.
Proof.
  intros H Hs Hlt. unfold rollout_gradually. rewrite H.
  by rewrite rollout_loop_stuck.
Qed.

Lemma rollout_gradually_never_ends_witness :
  rollout_gradually 1000 (manager system_f) "f" (1 # 2) 0 = None.
Proof.
  apply (rollout_gradually_never_ends 1000 (manager system_f) "f" (1 # 2) 0
           flag_f).
  - reflexivity.
  - unfold Qle. simpl. lia.
  - reflexivity.
Defined.

(** ** The experiment engine under sequences of calls *)

Lemma str_of_nat_inj (n m : nat) : str_of_nat n = str_of_nat m -> n = m.
Proof.
  unfold str_of_nat. intros H.
  apply (f_equal NilEmpty.uint_of_string) in H.
  rewrite !NilEmpty.usu in H. injection H as H.
  apply (f_equal Nat.of_uint) in H.
  by rewrite !DecimalNat.Unsigned.of_to in H.
Qed.

Lemma assign_variant_step self exp_id user exp :
  experiments self !! exp_id = Some exp ->
  exists exp',
    experiments (snd (assign_variant self exp_id user))
    = <[exp_id := exp']> (experiments self)
    /\ variant_a_conversions exp' = variant_a_conversions exp
    /\ variant_b_conversions exp' = variant_b_conversions exp
    /\ variant_a_count exp <= variant_a_count exp'
    /\ variant_b_count exp <= variant_b_count exp'.
Proof.
  intros H. unfold assign_variant. rewrite H. simpl.
  eexists. split; [reflexivity |].
  destruct (Qltb _ (split exp)); simpl; repeat split; lia.
Qed.

Lemma record_conversion_step self exp_id user exp :
  experiments self !! exp_id = Some exp ->
  exists exp',
    experiments (record_conversion self exp_id user)
    = <[exp_id := exp']> (experiments self)
    /\ ((variant_a_conversions exp' = variant_a_conversions exp + 1
         /\ variant_a_count exp' = variant_a_count exp + 1
         /\ variant_b_conversions exp' = variant_b_conversions exp
         /\ variant_b_count exp' = variant_b_count exp)
        \/ (variant_b_conversions exp' = variant_b_conversions exp + 1
            /\ variant_b_count exp' = variant_b_count exp + 1
            /\ variant_a_conversions exp' = variant_a_conversions exp
            /\ variant_a_count exp' = variant_a_count exp)).
Proof.
  intros H. unfold record_conversion. rewrite H.
  unfold assign_variant. rewrite H. simpl. rewrite lookup_insert_eq. simpl.
  rewrite insert_insert_eq. eexists. split; [reflexivity |].
  destruct (Qltb _ (split exp)); simpl; [left | right]; repeat split.
Qed.

(** [assign_variant] on a known experiment adds one to the count of the
    variant it returns and changes nothing else: not the other count, the
    conversions, the split or the labels, nor any other experiment. *)
Theorem assign_variant_counts self exp_id user exp :
  experiments self !! exp_id = Some exp ->
  let variant := fst (assign_variant self exp_id user) in
  exists exp',
    experiments (snd (assign_variant self exp_id user))
    = <[exp_id := exp']> (experiments self)
    /\ variant = variant_of exp_id user (split exp)
    /\ count_of variant exp' = count_of variant exp + 1
    /\ count_of (other_variant variant) exp'
       = count_of (other_variant variant) exp
    /\ variant_a_conversions exp' = variant_a_conversions exp
    /\ variant_b_conversions exp' = variant_b_conversions exp
    /\ split exp' = split exp
    /\ exp_name exp' = exp_name exp
    /\ flag_a exp' = flag_a exp
    /\ flag_b exp' = flag_b exp.
Proof.
  intros H. unfold assign_variant. rewrite H. simpl.
  eexists. split; [reflexivity |]. unfold variant_of.
  destruct (Qltb _ (split exp)); simpl; repeat split; reflexivity.
Qed.

Lemma assign_variant_counts_witness :
  exists exp',
    experiments (snd (assign_variant ab_checkout "exp-0" (sample_user "1" [])))
    = <[ "exp-0"%string := exp' ]> (experiments ab_checkout)
    /\ variant_a_count exp' = 1.
Proof.
  destruct (assign_variant_counts ab_checkout "exp-0" (sample_user "1" [])
              {| exp_name := "New Checkout Flow"; flag_a := "checkout_v1";
                 flag_b := "checkout_v2"; split := 1 # 2;
                 variant_a_count := 0; variant_b_count := 0;
                 variant_a_conversions := 0; variant_b_conversions := 0 |})
    as (exp' & Hm & Hv & Hc & _).
  - vm_compute. reflexivity.
  - exists exp'. split; [exact Hm |].
    rewrite Hv in Hc. vm_compute in Hc. exact Hc.
Defined.

(** [record_conversion] on a known experiment adds one to the conversion
    counter of the user's variant and, because it calls [assign_variant],
    one to that variant's count as well; the other variant's counters,
    the split and every other experiment are unchanged. *)
Theorem record_conversion_counts self exp_id user exp :
  experiments self !! exp_id = Some exp ->
  let variant := variant_of exp_id user (split exp) in
  exists exp',
    experiments (record_conversion self exp_id user)
    = <[exp_id := exp']> (experiments self)
    /\ conversions_of variant exp' = conversions_of variant exp + 1
    /\ count_of variant exp' = count_of variant exp + 1
    /\ conversions_of (other_variant variant) exp'
       = conversions_of (other_variant variant) exp
    /\ count_of (other_variant variant) exp'
       = count_of (other_variant variant) exp
    /\ split exp' = split exp.
Proof.
  intros H. unfold record_conversion. rewrite H.
  unfold assign_variant. rewrite H. simpl. rewrite lookup_insert_eq. simpl.
  rewrite insert_insert_eq. eexists. split; [reflexivity |].
  unfold variant_of, conversions_of, count_of, other_variant.
  destruct (Qltb _ (split exp)); simpl; repeat split; reflexivity.
Qed.

Lemma record_conversion_counts_witness :
  exists exp',
    experiments (record_conversion ab_checkout "exp-0" (sample_user "1" []))
    = <[ "exp-0"%string := exp' ]> (experiments ab_checkout)
    /\ variant_a_conversions exp' = 1
    /\ variant_a_count exp' = 1.
Proof.
  destruct (record_conversion_counts ab_checkout "exp-0" (sample_user "1" [])
              {| exp_name := "New Checkout Flow"; flag_a := "checkout_v1";
                 flag_b := "checkout_v2"; split := 1 # 2;
                 variant_a_count := 0; variant_b_count := 0;
                 variant_a_conversions := 0; variant_b_conversions := 0 |})
    as (exp' & Hm & Hv & Hc & _).
  - vm_compute. reflexivity.
  - exists exp'. split; [exact Hm |].
    vm_compute in Hv, Hc. split; [exact Hv | exact Hc].
Defined.

Lemma ids_ok_insert_present self k exp :
  ids_ok self ->
  is_Some (experiments self !! k) ->
  ids_ok {| experiments := <[k := exp]> (experiments self) |}.
Proof.
  intros Hok Hk k'. simpl. rewrite map_size_insert_Some by exact Hk.
  rewrite lookup_insert_is_Some', <- (Hok k').
  split; [intros [<- | H]; assumption | by right].
Qed.

Lemma create_experiment_fresh self name a b q :
  ids_ok self ->
  experiments self !! fst (create_experiment self name a b q) = None.
Proof.
  intros Hok. simpl. apply eq_None_not_Some. intros Hs.
  apply Hok in Hs as (i & Hi & Heq). simpl in Heq. injection Heq as Heq.
  apply str_of_nat_inj in Heq. lia.
Qed.

Lemma ab_run_ids_ok self op : ids_ok self -> ids_ok (ab_run self op).
Proof.
  intros Hok. destruct op as [name a b q | exp_id user | exp_id user]; simpl.
  - pose proof (create_experiment_fresh self name a b q Hok) as Hfresh.
    simpl in Hfresh. intros k. simpl.
    rewrite map_size_insert_None by exact Hfresh.
    rewrite lookup_insert_is_Some', (Hok k). split.
    + intros [<- | (i & Hi & ->)]; [exists (size (experiments self)) |
                                     exists i]; split; (lia || reflexivity).
    + intros (i & Hi & ->).
      destruct (decide (i = size (experiments self))) as [-> | Hne];
        [by left | right; exists i; split; [lia | reflexivity]].
  - destruct (experiments self !! exp_id) as [exp |] eqn:H.
    + destruct (assign_variant_step self exp_id user exp H)
        as (exp' & Hm & _).
      destruct (snd (assign_variant self exp_id user)) as [m]. simpl in Hm.
      subst m. apply ids_ok_insert_present; [exact Hok | by rewrite H].
    + unfold assign_variant. by rewrite H.
  - destruct (experiments self !! exp_id) as [exp |] eqn:H.
    + destruct (record_conversion_step self exp_id user exp H)
        as (exp' & Hm & _).
      destruct (record_conversion self exp_id user) as [m]. simpl in Hm.
      subst m. apply ids_ok_insert_present; [exact Hok | by rewrite H].
    + unfold record_conversion. by rewrite H.
Qed.

Lemma fold_ab_run_ids_ok ops : forall self,
  ids_ok self -> ids_ok (fold_left ab_run ops self).
Proof.
  induction ops as [| op ops IH]; intros self H; simpl; [exact H |].
  apply IH. by apply ab_run_ids_ok.
Qed.

Lemma ab0_ids_ok : ids_ok ab0.
Proof.
  intros k. simpl. rewrite lookup_empty, map_size_empty. split.
  - by intros [? ?].
  - intros (i & Hi & _). lia.
Qed.

(** After any calls on a new engine, [create_experiment] returns an id
    that is not in use: it overwrites no experiment, every experiment
    held stays as it is, and there is one experiment more. *)
Theorem create_experiment_fresh_id ops name a b (q : Q) :
  let self := ab_runs ops in
  let exp_id := fst (create_experiment self name a b q) in
  let self' := snd (create_experiment self name a b q) in
  experiments self !! exp_id = None
  /\ size (experiments self') = S (size (experiments self))
  /\ (forall k exp,
        experiments self !! k = Some exp -> experiments self' !! k = Some exp).
Proof.
  simpl.
  pose proof (create_experiment_fresh (ab_runs ops) name a b q
                (fold_ab_run_ids_ok ops ab0 ab0_ids_ok)) as Hfresh.
  simpl in Hfresh. split; [exact Hfresh | split].
  - by apply map_size_insert_None.
  - intros k exp Hk. rewrite lookup_insert_ne; [exact Hk |].
    intros <-. congruence.
Qed.

Lemma ab_run_exp_ok self op :
  (forall k exp, experiments self !! k = Some exp -> exp_ok exp) ->
  forall k exp, experiments (ab_run self op) !! k = Some exp -> exp_ok exp.
Proof.
  intros Hok k exp'.
  destruct op as [name a b q | exp_id user | exp_id user]; simpl.
  - intros Hl. apply lookup_insert_Some in Hl as [[_ <-] | [_ Hl]];
      [unfold exp_ok; simpl; lia | by eapply Hok].
  - destruct (experiments self !! exp_id) as [exp |] eqn:H;
      [| unfold assign_variant; rewrite H; apply Hok].
    destruct (assign_variant_step self exp_id user exp H)
      as (exp1 & -> & Ha & Hb & Hca & Hcb).
    intros Hl. apply lookup_insert_Some in Hl as [[_ <-] | [_ Hl]];
      [| by eapply Hok].
    specialize (Hok _ _ H). unfold exp_ok in *. lia.
  - destruct (experiments self !! exp_id) as [exp |] eqn:H;
      [| unfold record_conversion; rewrite H; apply Hok].
    destruct (record_conversion_step self exp_id user exp H)
      as (exp1 & -> & Hcases).
    intros Hl. apply lookup_insert_Some in Hl as [[_ <-] | [_ Hl]];
      [| by eapply Hok].
    specialize (Hok _ _ H). unfold exp_ok in *. lia.
Qed.

(** After any calls on a new engine, every experiment has, for each
    variant, a conversion counter between zero and the variant's count:
    [record_conversion] counts the assignment it makes. *)
Theorem conversions_within_counts ops exp_id exp :
  experiments (ab_runs ops) !! exp_id = Some exp -> exp_ok exp.
Proof.
  unfold ab_runs.
  assert (forall self,
             (forall k e, experiments self !! k = Some e -> exp_ok e) ->
             forall k e,
               experiments (fold_left ab_run ops self) !! k = Some e ->
               exp_ok e) as Hfold.
  { induction ops as [| op ops IH]; intros self H; simpl; [exact H |].
    apply IH. by apply ab_run_exp_ok. }
  apply Hfold. intros k e Hk. simpl in Hk. by rewrite lookup_empty in Hk.
Qed.

Lemma conversions_within_counts_witness :
  exp_ok
    {| exp_name := "t"; flag_a := "x"; flag_b := "y"; split := 1 # 2;
       variant_a_count := 2; variant_b_count := 0;
       variant_a_conversions := 1; variant_b_conversions := 0 |}.
Proof.
  apply (conversions_within_counts
           [ ab_create "t" "x" "y" (1 # 2);
             ab_assign "exp-0" (sample_user "1" []);
             ab_record "exp-0" (sample_user "1" []) ] "exp-0").
  vm_compute. reflexivity.
Defined.

(** A split of zero or less sends every user to ['b'], a split of one or
    more sends every user to ['a']. *)
Theorem assign_variant_split_extremes self exp_id user exp :
  experiments self !! exp_id = Some exp ->
  ((split exp <= 0)%Q -> fst (assign_variant self exp_id user) = "b"%string)
  /\ ((1 <= split exp)%Q -> fst (assign_variant self exp_id user) = "a"%string).
Proof.
  intros H. rewrite (assign_variant_returns _ _ _ _ H). unfold variant_of.
  pose proof (percentage_range (exp_id +:+ ":" +:+ id user)) as [Hlo Hhi].
  split; intros Hs.
  - assert (Qltb (percentage (exp_id +:+ ":" +:+ id user)) (split exp) = false)
      as -> by (apply Qltb_ge; lra).
    reflexivity.
  - assert (Qltb (percentage (exp_id +:+ ":" +:+ id user)) (split exp) = true)
      as -> by (apply Qltb_lt; lra).
    reflexivity.
Qed.

Lemma assign_variant_split_extremes_witness :
  fst (assign_variant (snd (create_experiment ab0 "t" "x" "y" 2)) "exp-0"
         (sample_user "2" [])) = "a"%string.
Proof.
  apply (assign_variant_split_extremes
           (snd (create_experiment ab0 "t" "x" "y" 2)) "exp-0"
           (sample_user "2" [])
           {| exp_name := "t"; flag_a := "x"; flag_b := "y"; split := 2;
              variant_a_count := 0; variant_b_count := 0;
              variant_a_conversions := 0; variant_b_conversions := 0 |}).
  - vm_compute. reflexivity.
  - simpl. unfold Qle. simpl. lia.
Defined.

(** Experiments and flags share their buckets: a user is assigned to
    ['a'] exactly when an enabled Percentage flag whose key is the
    experiment id and whose percentage is the split passes that user. *)
Theorem assign_variant_matches_percentage now engine self exp_id user exp flag0 :
  experiments self !! exp_id = Some exp ->
  enabled flag0 = true ->
  rollout_strategy flag0 = PERCENTAGE ->
  key flag0 = exp_id ->
  rollout_percentage flag0 = split exp ->
  fst (assign_variant self exp_id user) = "a"%string
  <-> returned (evaluate now engine flag0 user) = true.
Proof.
  intros H He Hs Hk Hp.
  rewrite (assign_variant_returns _ _ _ _ H), evaluate_returned, He, Hs.
  simpl. unfold variant_of, _evaluate_percentage. rewrite Hk, Hp.
  destruct (Qltb _ (split exp)); split; (reflexivity || discriminate).
Qed.

Lemma assign_variant_matches_percentage_witness :
  fst (assign_variant ab_checkout "exp-0" (sample_user "3" [])) = "a"%string
  <-> returned
        (evaluate 0 engine0
           (setattr (setattr (setattr flag_f (kw_key "exp-0"))
                       (kw_rollout_strategy PERCENTAGE))
              (kw_rollout_percentage (1 # 2)))
           (sample_user "3" [])) = true.
Proof.
  exact (assign_variant_matches_percentage 0 engine0 ab_checkout "exp-0"
           (sample_user "3" [])
           {| exp_name := "New Checkout Flow"; flag_a := "checkout_v1";
              flag_b := "checkout_v2"; split := 1 # 2;
              variant_a_count := 0; variant_b_count := 0;
              variant_a_conversions := 0; variant_b_conversions := 0 |}
           (setattr (setattr (setattr flag_f (kw_key "exp-0"))
                       (kw_rollout_strategy PERCENTAGE))
              (kw_rollout_percentage (1 # 2)))
           eq_refl eq_refl eq_refl eq_refl eq_refl).
Defined.

(** ** get_results and get_flag_stats *)

Lemma truediv_ok (a b : Q) : ~ (b == 0)%Q -> truediv a b = Ok (a / b)%Q.
Proof.
  intros H. unfold truediv. destruct (Qeq_bool b 0) eqn:E; [| reflexivity].
  apply Qeq_bool_iff in E. contradiction.
Qed.

Lemma truediv_raises (a b : Q) :
  (b == 0)%Q -> truediv a b = Raise ZeroDivisionError.
Proof.
  intros H. unfold truediv. by rewrite (proj2 (Qeq_bool_iff b 0) H).
Qed.

Lemma inject_max_pos (n : Z) : (0 < inject_Z (Z.max n 1))%Q.
Proof. rewrite <- (Zlt_Qlt 0). lia. Qed.

(** A counter over [max(count, 1)]. *)
Lemma ratio_bounds (c n : Z) :
  0 <= c <= n ->
  (0 <= inject_Z c / inject_Z (Z.max n 1) <= 1)%Q
  /\ (0 < c -> (0 < inject_Z c / inject_Z (Z.max n 1))%Q)
  /\ (c = 0 -> (inject_Z c / inject_Z (Z.max n 1) == 0)%Q).
Proof.
  intros [H0 Hn]. pose proof (inject_max_pos n) as Hm.
  assert (0 <= inject_Z c)%Q as Hc0 by (rewrite <- (Zle_Qle 0); lia).
  assert (inject_Z c <= inject_Z (Z.max n 1))%Q as Hcm
    by (rewrite <- Zle_Qle; lia).
  repeat split.
  - apply Qle_shift_div_l; [exact Hm | lra].
  - apply Qle_shift_div_r; [exact Hm | lra].
  - intros Hc. apply Qlt_shift_div_l; [exact Hm |].
    assert (0 < inject_Z c)%Q by (rewrite <- (Zlt_Qlt 0); lia). lra.
  - intros ->. unfold Qdiv. apply Qmult_0_l.
Qed.

Lemma py_max_cases (a b : Q) :
  (py_max a b = a /\ (b <= a)%Q) \/ (py_max a b = b /\ (a < b)%Q).
Proof.
  unfold py_max. destruct (Qltb a b) eqn:E.
  - right. split; [reflexivity | by apply Qltb_lt].
  - left. split; [reflexivity | by apply Qltb_ge].
Qed.


(** The two rate divisions never raise; what is left of [get_results] is
    the division of the lift. *)
Lemma get_results_rates self exp_id exp :
  experiments self !! exp_id = Some exp ->
  let ra := (inject_Z (variant_a_conversions exp)
             / inject_Z (Z.max (variant_a_count exp) 1))%Q in
  let rb := (inject_Z (variant_b_conversions exp)
             / inject_Z (Z.max (variant_b_count exp) 1))%Q in
  get_results self exp_id
  = match truediv (py_abs (ra - rb)) (py_max ra rb) with
    | Raise e => Raise e
    | Ok l =>
        Ok (Some
          {| res_name := exp_name exp;
             variant_a := {| users := variant_a_count exp;
                             conversions := variant_a_conversions exp;
                             rate := ra |};
             variant_b := {| users := variant_b_count exp;
                             conversions := variant_b_conversions exp;
                             rate := rb |};
             winner := if Qltb rb ra then "a" else "b";
             lift := l |})
    end.
Proof.
  intros H. simpl. unfold get_results. rewrite H.
  rewrite (truediv_ok (inject_Z (variant_a_conversions exp)))
    by (pose proof (inject_max_pos (variant_a_count exp)); lra).
  simpl.
  rewrite (truediv_ok (inject_Z (variant_b_conversions exp)))
    by (pose proof (inject_max_pos (variant_b_count exp)); lra).
  reflexivity.
Qed.

(** For an experiment whose conversions do not exceed its counts,
    [get_results] raises [ZeroDivisionError] exactly when neither variant
    has a conversion. *)
Theorem get_results_raises_iff self exp_id exp :
  experiments self !! exp_id = Some exp ->
  exp_ok exp ->
  get_results self exp_id = Raise ZeroDivisionError
  <-> variant_a_conversions exp = 0 /\ variant_b_conversions exp = 0.
Proof.
  intros H [Ha Hb]. split.
  - rewrite (get_results_rates _ _ _ H). simpl.
    destruct (ratio_bounds _ _ Ha) as ([Ha0 _] & Hapos & _).
    destruct (ratio_bounds _ _ Hb) as ([Hb0 _] & Hbpos & _).
    intros Hr.
    destruct (decide (variant_a_conversions exp = 0)) as [Hza | Hza];
      [destruct (decide (variant_b_conversions exp = 0)) as [Hzb | Hzb];
       [by split |] |];
      exfalso; rewrite truediv_ok in Hr; try discriminate;
      match goal with
      | |- ~ (py_max ?a ?b == 0)%Q =>
          destruct (py_max_cases a b) as [[-> Hle] | [-> Hlt]]
      end;
      try (specialize (Hapos ltac:(lia))); try (specialize (Hbpos ltac:(lia)));
      lra.
  - intros [Hza Hzb]. by eapply get_results_no_conversion.
Qed.

Lemma get_results_raises_iff_witness :
  get_results ab_checkout "exp-0" = Raise ZeroDivisionError
  <-> 0 = 0 /\ 0 = 0.
Proof.
  apply (get_results_raises_iff ab_checkout "exp-0"
           {| exp_name := "New Checkout Flow"; flag_a := "checkout_v1";
              flag_b := "checkout_v2"; split := 1 # 2;
              variant_a_count := 0; variant_b_count := 0;
              variant_a_conversions := 0; variant_b_conversions := 0 |}).
  - vm_compute. reflexivity.
  - unfold exp_ok. simpl. lia.
Defined.




(** For a flag with [0 <= enabled_count <= evaluations], the enabled
    rate reported by [get_flag_stats] lies in [0,1], and it is zero
    for a flag that was never evaluated. *)
Theorem get_flag_stats_rate flag0 :
  counters_ok flag0 ->
  0 <= enabled_count flag0 ->
  exists stats,
    get_flag_stats flag0 = Ok stats
    /\ (0 <= enabled_rate stats <= 1)%Q
    /\ (evaluations flag0 = 0 -> (enabled_rate stats == 0)%Q).
Proof.
  intros Hok H0. unfold get_flag_stats. rewrite truediv_ok;
    [| pose proof (inject_max_pos (evaluations flag0)); lra].
  eexists. split; [reflexivity |]. simpl.
  destruct (ratio_bounds (enabled_count flag0) (evaluations flag0))
    as (Hb & _ & Hz); [unfold counters_ok in Hok; lia |].
  split; [exact Hb |]. intros He. apply Hz. unfold counters_ok in Hok. lia.
Qed.

Lemma get_flag_stats_rate_witness :
  exists stats,
    get_flag_stats
      (flag_after (evaluate 0 engine0 flag_f (sample_user "1" [])))
    = Ok stats
    /\ (0 <= enabled_rate stats <= 1)%Q.
Proof.
  destruct (get_flag_stats_rate
              (flag_after (evaluate 0 engine0 flag_f (sample_user "1" []))))
    as (stats & Hs & Hb & _).
  - unfold counters_ok. simpl. lia.
  - simpl. lia.
  - exists stats. split; [exact Hs | exact Hb].
Defined.

(** ** update_flag, and evaluation under the kill switch *)




(** While a flag is switched off, a run of [is_enabled] calls on it
    returns false every time; the flag's [evaluations] still grows by
    the number of calls, and its [enabled_count] does not move. *)
Theorem disabled_is_enabled_each calls : forall self key flag0,
  flags self !! key = Some flag0 ->
  enabled flag0 = false ->
  fst (is_enabled_each self key calls) = repeat false (length calls)
  /\ exists flag',
       flags (snd (is_enabled_each self key calls)) !! key = Some flag'
       /\ enabled flag' = false
       /\ evaluations flag' = evaluations flag0 + Z.of_nat (length calls)
       /\ enabled_count flag' = enabled_count flag0.
Proof.
  induction calls as [| [now user] calls IH]; intros self key flag0 H He.
  - simpl. split; [reflexivity |]. exists flag0. repeat split; (done || lia).
  - destruct (is_enabled_present now self key user flag0 H)
      as (r & engine & flag1 & Hev & Hie).
    pose proof (evaluate_disabled now (targeting_engine self) flag0 user He)
      as Hr.
    pose proof (evaluate_flag_after now (targeting_engine self) flag0 user)
      as (_ & _ & He1).
    unfold returned in Hr. unfold flag_after in He1. rewrite Hev in Hr, He1.
    simpl in Hr, He1. subst r.
    apply evaluate_counts in Hev as (Hn & Hc & _).
    simpl. rewrite Hie.
    match goal with
    | |- context [is_enabled_each ?m key calls] =>
        destruct (IH m key flag1 (lookup_insert_eq _ _ _)
                    ltac:(congruence))
          as (Hrs & flag' & Hl & He' & Hn' & Hc');
        destruct (is_enabled_each m key calls) as [rs self'] eqn:Hrun
    end.
    simpl in *. split; [by rewrite Hrs |].
    exists flag'. repeat split; (done || lia).
Qed.

Lemma disabled_is_enabled_each_witness :
  fst (is_enabled_each (manager (snd (activate 3 system_f "f" "stop"))) "f"
         [ (4, sample_user "1" []); (5, sample_user "2" []) ])
  = [ false; false ].
Proof.
  apply (disabled_is_enabled_each
           [ (4, sample_user "1" []); (5, sample_user "2" []) ]
           (manager (snd (activate 3 system_f "f" "stop"))) "f"
           (setattr flag_f (kw_enabled false)));
    vm_compute; reflexivity.
Defined.
